(** * rosnav observation spaces: laser scan and stacked laser map

  A shallow embedding of
  [rosnav/utils/observation_space/spaces/feature_maps/stacked_laser_map_space.py]
  and [rosnav/utils/observation_space/spaces/base/laser_space.py], with
  the encoder table of [rosnav/utils/constants.py] and the layer
  configuration of [rosnav/model/feature_extractors/resnet/resnet.py].

  Numeric model.  Ranges, angles and map cells are floating-point numbers
  in the source.  They are modelled as rationals [Q] with exact
  arithmetic: [np.pi] is the rational value of the double it denotes, the
  casts to [float32]/[float64] are the identity, and rounding, NaN and
  infinities are outside the model.  Two rationals are compared with
  [==] ([Qeq]) wherever the comparison goes through arithmetic.

  Effects.  Python exceptions are values of [Py.exn] carried by
  [Py.result]; methods that read or assign attributes of [self] run in
  the state-and-exception monad [M], which keeps the state reached at the
  moment an exception is raised. *)

From Stdlib Require Import QArith Qround Qminmax Lia Lqa ZArith List.
From stdpp Require Import base list gmap strings.

(** ** Python values, exceptions and sequence primitives *)

Module Py.

(** The built-in exception classes the modelled code can raise.  All of
    them derive from [Exception]. *)
Inductive exn : Type :=
| IndexError
| KeyError
| TypeError
| ValueError.

Definition is_Exception (e : exn) : bool := true.

Inductive result (A : Type) : Type :=
| Ok (x : A)
| Raise (e : exn).
Arguments Ok {A} x.
Arguments Raise {A} e.

#[export] Instance result_ret : MRet result := @Ok.
#[export] Instance result_bind : MBind result :=
  fun A B f m => match m with Ok x => f x | Raise e => Raise e end.

(** The values that travel through an observation dict in the laser
    channel, and that a deque can therefore hold: [None] (a dropped
    reading), a bare float, or a one-dimensional numeric
    [numpy.ndarray]. *)
Inductive PyObj : Type :=
| PyNone
| PyFloat (x : Q)
| PyArray (a : list Q).

(** [type(o) is np.ndarray] *)
Definition is_ndarray (o : PyObj) : bool :=
  match o with PyArray _ => true | _ => false end.

(** [a[i]] for an integer [i]: negative indices count from the end, an
    index outside [-len, len) raises [IndexError]. *)
Definition getitem (a : list Q) (i : Z) : result Q :=
  let n := Z.of_nat (length a) in
  let j := if (i <? 0)%Z then (n + i)%Z else i in
  if ((0 <=? j)%Z && (j <? n)%Z)%bool
  then match a !! Z.to_nat j with Some x => Ok x | None => Raise IndexError end
  else Raise IndexError.

(** [a[lo:hi]] for [0 <= lo <= hi]: the bounds are clipped to the
    sequence, never an error. *)
Definition slice {A} (a : list A) (lo hi : nat) : list A :=
  take (hi - lo) (drop lo a).

(** [range(n)] *)
Definition range (n : nat) : list nat := seq 0 n.

(** [for x in xs: acc = body(x, acc)], stopping at the first exception. *)
Fixpoint for_each {A S} (xs : list A) (body : A -> S -> result S) (acc : S)
  : result S :=
  match xs with
  | [] => Ok acc
  | x :: xs' =>
      match body x acc with
      | Ok acc' => for_each xs' body acc'
      | Raise e => Raise e
      end
  end.

End Py.
Import Py.

(** ** numpy primitives *)

Module Np.

Local Open Scope Q_scope.

(** [np.pi], the double 0x1.921fb54442d18p+1, as the rational it is. *)
Definition pi : Q := 884279719003555 # 281474976710656.

(** An array with its shape; [data] is the row-major buffer. *)
Record ndarray : Type := mk_ndarray { shape : list nat; data : list Q }.

Definition size_of (shp : list nat) : nat := foldr Nat.mul 1%nat shp.

(** [np.zeros(shp)] *)
Definition zeros (shp : list nat) : ndarray :=
  mk_ndarray shp (replicate (size_of shp) 0).

(** [np.zeros(n)] and [np.zeros_like(a)] for one-dimensional arrays,
    which the model keeps as bare lists. *)
Definition zeros1 (n : nat) : list Q := replicate n 0.
Definition zeros_like (a : list Q) : list Q := replicate (length a) 0.

(** [a.reshape(shp)]: same buffer, new shape; the sizes must agree. *)
Definition reshape (a : ndarray) (shp : list nat) : result ndarray :=
  if (size_of shp =? length (data a))%nat
  then Ok (mk_ndarray shp (data a))
  else Raise ValueError.

(** [a.flatten()] *)
Definition flatten (a : ndarray) : ndarray :=
  mk_ndarray [length (data a)] (data a).

(** [a[r, c] = v] on a two-dimensional array. *)
Definition setitem2 (a : ndarray) (r c : nat) (v : Q) : result ndarray :=
  match shape a with
  | [rows; cols] =>
      if ((r <? rows)%nat && (c <? cols)%nat)%bool
      then Ok (mk_ndarray (shape a) (<[(r * cols + c)%nat := v]> (data a)))
      else Raise IndexError
  | _ => Raise IndexError
  end.

(** [np.min(xs)]: an empty operand raises [ValueError]. *)
Definition min (xs : list Q) : result Q :=
  match xs with
  | [] => Raise ValueError
  | x :: xs' => Ok (fold_left Qmin xs' x)
  end.

(** [np.mean(xs)]: the sum over the count.  On an empty operand numpy
    warns and yields NaN; [Qdiv] yields 0 there.  The modelled code only
    takes the mean of a slice whose minimum it has just taken. *)
Definition sum (xs : list Q) : Q := fold_left Qplus xs 0.
Definition mean (xs : list Q) : Q := sum xs / inject_Z (Z.of_nat (length xs)).

Definition as_row (o : PyObj) : option (list Q) :=
  match o with PyArray a => Some a | _ => None end.

Definition is_scalar (o : PyObj) : bool :=
  match o with PyArray _ => false | _ => true end.

(** The float a scalar entry of a deque converts to.  numpy turns [None]
    into NaN, which the rational model does not have.  The modelled code
    never puts a scalar in its deque; for a deque that is handed to it with
    [None] inside, the conversion is rendered as the [ValueError] in which
    the pooling of such a deque ends, for any deque of fewer than
    [9 * 720 + 712] entries. *)
Definition as_float (o : PyObj) : result Q :=
  match o with
  | PyFloat x => Ok x
  | PyNone => Raise ValueError
  | PyArray _ => Raise ValueError
  end.

Fixpoint as_floats (os : list PyObj) : result (list Q) :=
  match os with
  | [] => Ok []
  | o :: os' => x ← as_float o; xs ← as_floats os'; mret (x :: xs)
  end.

(** [np.array(queue, dtype=np.float32).flatten()] for a deque of
    [PyObj].  Rows of one common length give the concatenation of the
    rows; a deque of floats gives those floats ([None] among them: see
    [as_float]); rows of different lengths, or rows mixed with scalars,
    raise [ValueError] (inhomogeneous shape). *)
Definition array_flatten (queue : list PyObj) : result (list Q) :=
  match queue with
  | [] => Ok []
  | PyArray a0 :: _ =>
      match mapM as_row queue with
      | Some rows =>
          if forallb (fun r => (length r =? length a0)%nat) rows
          then Ok (concat rows)
          else Raise ValueError
      | None => Raise ValueError
      end
  | _ =>
      if forallb is_scalar queue then as_floats queue else Raise ValueError
  end.

(** [np.matlib.repmat(a, 1, n)] for a one-dimensional [a]: one row that
    repeats [a] [n] times. *)
Fixpoint tile (n : nat) (xs : list Q) : list Q :=
  match n with
  | O => []
  | S n' => xs ++ tile n' xs
  end.

Definition repmat_1 (a : ndarray) (n : nat) : ndarray :=
  mk_ndarray [1%nat; (length (data a) * n)%nat] (tile n (data a)).

End Np.

(** ** gymnasium spaces *)

Module Gym.

Inductive Dtype : Type := float32.

(** [spaces.Box(low, high, shape, dtype)] with scalar bounds. *)
Record Box : Type := mk_Box {
  low : Q;
  high : Q;
  box_shape : list nat;
  dtype : Dtype
}.

End Gym.

(** ** Keys of the observation dict *)

(** Modelled from the spec: [OBS_DICT_KEYS.LASER], [OBS_DICT_KEYS.DONE] and
    [LaserCollector.name] are constants of the [rl_utils] package, which is
    not part of the sources; the spec names the channels "LASER" and
    "DONE".  No result below depends on the spelling. *)
Definition OBS_DICT_KEYS_LASER : string := "LASER".
Definition OBS_DICT_KEYS_DONE : string := "DONE".
Definition LaserCollector_name : string := "LASER".

(** ** [StackedLaserMapSpace] *)

Module StackedLaserMapSpace.

Local Open Scope Q_scope.

(** What [rospy.logwarn] receives: the source formats the caught exception
    into the message. *)
Inductive LogEntry : Type := logwarn_cannot_build (e : exn).

(** The instance.  [_laser_queue] is the deque, leftmost element first;
    [rosout] collects the warnings handed to [rospy.logwarn].  The stack
    size and the feature map size are counts and are natural numbers here.
    The attributes [scan_size_des], [scan_angle_increment_des] and
    [scan_tmp] are assigned and read back within one resampling and are
    kept as locals. *)
Record self : Type := mk_self {
  _laser_queue : list PyObj;
  _laser_stack_size : nat;
  _feature_map_size : nat;
  _roi_in_m : Q;
  rosout : list LogEntry
}.

(** [__init__] *)
Definition init (laser_stack_size feature_map_size : nat) (roi_in_m : Q) : self :=
  mk_self [] laser_stack_size feature_map_size roi_in_m [].

(** Methods: a state transformer that may end in an exception. *)
Definition M (A : Type) : Type := self -> result A * self.

#[export] Instance M_ret : MRet M := fun A x s => (Ok x, s).
#[export] Instance M_bind : MBind M :=
  fun A B f m s =>
    match m s with
    | (Ok x, s') => f x s'
    | (Raise e, s') => (Raise e, s')
    end.

Definition get_attr {A} (f : self -> A) : M A := fun s => (Ok (f s), s).

Definition set_laser_queue (q : list PyObj) : M unit :=
  fun s =>
    (Ok (), mk_self q (_laser_stack_size s) (_feature_map_size s)
                   (_roi_in_m s) (rosout s)).

Definition rospy_logwarn (w : LogEntry) : M unit :=
  fun s =>
    (Ok (), mk_self (_laser_queue s) (_laser_stack_size s)
                   (_feature_map_size s) (_roi_in_m s) (w :: rosout s)).

(** A pure numpy computation run inside a method. *)
Definition lift {A} (r : result A) : M A := fun s => (r, s).

(** [if c: body] *)
Definition when (c : bool) (body : M unit) : M unit :=
  if c then body else mret ().

(** [try: body  except Exception as e: handler(e)] for a pure [body]. *)
Definition try_except {A} (body : result A) (handler : exn -> M A) : M A :=
  match body with
  | Ok x => mret x
  | Raise e => if is_Exception e then handler e else lift (Raise e)
  end.

(** [self._laser_queue.pop()]: removes and returns the rightmost element;
    [IndexError] on an empty deque. *)
Definition deque_pop : M PyObj :=
  q ← get_attr _laser_queue;
  match last q with
  | Some x => set_laser_queue (take (length q - 1) q);; mret x
  | None => lift (Raise IndexError)
  end.

(** [self._laser_queue.appendleft(x)] *)
Definition deque_appendleft (x : PyObj) : M unit :=
  q ← get_attr _laser_queue;
  set_laser_queue (x :: q).

(** [_reset_laser_stack]: a deque of [_laser_stack_size] references to one
    zero array shaped like [laser_scan].  No element of the deque is ever
    written in place, so the sharing is not observable. *)
Definition _reset_laser_stack (laser_scan : list Q) : M unit :=
  n ← get_attr _laser_stack_size;
  set_laser_queue (replicate n (PyArray (Np.zeros_like laser_scan))).

(** [get_gym_space] *)
Definition get_gym_space (s : self) : Gym.Box :=
  Gym.mk_Box 0 (_roi_in_m s)
    [(_feature_map_size s * _feature_map_size s)%nat] Gym.float32.

(** The loop body of the resampling block (source lines 101-123): the
    value assigned to [scan_tmp[i]].  The block runs on scans of length 512
    only, where no divisor is zero. *)
Definition resample_entry (laser_scan : list Q) (i : nat) : result Q :=
  let scan_size_des := 720%Z in
  let scan_angle_increment_des := 2 * Np.pi / (inject_Z scan_size_des - 1) in
  let range_size := Z.of_nat (length laser_scan) in
  let angle_increment_orig := 2 * Np.pi / (inject_Z range_size - 1) in
  let theta :=
    (inject_Z (Z.of_nat i) - inject_Z scan_size_des / 2)
    * scan_angle_increment_des in
  let idx_low := Qfloor ((theta + Np.pi) / angle_increment_orig) in
  let idx_low := Z.max 0 idx_low in
  let theta_low :=
    (inject_Z idx_low - inject_Z range_size / 2) * angle_increment_orig in
  let idx_high := Qceiling ((theta + Np.pi) / angle_increment_orig) in
  let idx_high := Z.min (range_size - 1) idx_high in
  let theta_high :=
    (inject_Z idx_high - inject_Z range_size / 2) * angle_increment_orig in
  x_low ← getitem laser_scan idx_low;
  x_high ← getitem laser_scan idx_high;
  mret (x_low
        + ((theta - theta_low) / ((1 # 1000000000000) + theta_high - theta_low))
          * (x_high - x_low)).

(** The resampling block (source lines 93-124): [scan_tmp] starts as
    [np.zeros(720)] and entry [i] is assigned for [i] in [range(720)]. *)
Definition resample (laser_scan : list Q) : result (list Q) :=
  for_each (range 720)
    (fun i scan_tmp =>
       v ← resample_entry laser_scan i;
       mret (<[i := v]> scan_tmp))
    (Np.zeros1 720).

(** The [try] block of [_build_laser_map] (source lines 164-176).  The
    [print] of the deque's shape writes to stdout only; where it would
    raise (a ragged deque), the conversion on the next line raises the same
    [ValueError]. *)
Definition _build_laser_map_try (laser_queue : list PyObj) : result Np.ndarray :=
  temp ← Np.array_flatten laser_queue;
  scan_avg ←
    for_each (range 10)
      (fun n scan_avg =>
         let scan_tmp := slice temp (n * 720) ((n + 1) * 720) in
         for_each (range 80)
           (fun i scan_avg =>
              m ← Np.min (slice scan_tmp (i * 9) ((i + 1) * 9));
              scan_avg ← Np.setitem2 scan_avg (2 * n) i m;
              Np.setitem2 scan_avg (2 * n + 1) i
                (Np.mean (slice scan_tmp (i * 9) ((i + 1) * 9))))
           scan_avg)
      (Np.zeros [20%nat; 80%nat]);
  scan_avg ← Np.reshape scan_avg [1600%nat];
  Np.reshape (Np.repmat_1 scan_avg 4) [80%nat; 80%nat].

(** [_build_laser_map] *)
Definition _build_laser_map (laser_queue : list PyObj) : M Np.ndarray :=
  try_except (_build_laser_map_try laser_queue)
    (fun e =>
       rospy_logwarn (logwarn_cannot_build e);;
       space ← get_attr get_gym_space;
       mret (Np.zeros (Gym.box_shape space))).

(** [_process_laser_scan] *)
Definition _process_laser_scan (laser_scan : PyObj) (done : bool) : M Np.ndarray :=
  match laser_scan with
  | PyArray laser_scan =>
      q ← get_attr _laser_queue;
      when (length q =? 0)%nat (_reset_laser_stack laser_scan);;
      laser_scan ←
        (if (length laser_scan =? 512)%nat
         then lift (resample laser_scan)
         else mret laser_scan);
      deque_pop;;
      deque_appendleft (PyArray laser_scan);;
      q ← get_attr _laser_queue;
      laser_map ← _build_laser_map q;
      when done (_reset_laser_stack laser_scan);;
      mret laser_map
  | _ =>
      n ← get_attr _feature_map_size;
      mret (Np.zeros [(n * n)%nat])
  end.

(** [encode_observation]: [observation] is the observation dict, [kwargs]
    the keyword arguments, of which only the done flag is read. *)
Definition encode_observation
    (observation : gmap string PyObj) (kwargs : gmap string bool) : M Np.ndarray :=
  laser ← match observation !! OBS_DICT_KEYS_LASER with
          | Some v => mret v
          | None => lift (Raise KeyError)
          end;
  laser_map ← _process_laser_scan laser (default false (kwargs !! OBS_DICT_KEYS_DONE));
  mret (Np.flatten laser_map).

End StackedLaserMapSpace.

(** ** [LaserScanSpace] *)

Module LaserScanSpace.

Local Open Scope Q_scope.

(** Modelled from the spec: [BaseObservationSpace] is not part of the
    sources.  The spec says of its [apply_normalization] wrapper that an
    encode operation "may apply a post-hoc normalization step (rescale into
    [-1,1] or [0,1] using declared bounds) uniformly across all variants".
    [Normalization] is the choice the instance was built with. *)
Inductive Normalization : Type :=
| no_normalization
| rescale_unit          (* into [0, 1] *)
| rescale_symmetric.    (* into [-1, 1] *)

Record self : Type := mk_self {
  _num_beams : nat;
  _max_range : Q;
  _normalization : Normalization
}.

(** [get_gym_space] *)
Definition get_gym_space (s : self) : Gym.Box :=
  Gym.mk_Box 0 (_max_range s) [1%nat; _num_beams s] Gym.float32.

(** [o[np.newaxis, :]]: a one-dimensional array of length [n] becomes a
    [(1, n)] view of the same values; [None] and a bare float are not
    subscriptable. *)
Definition newaxis_all (o : PyObj) : result Np.ndarray :=
  match o with
  | PyArray a => Ok (Np.mk_ndarray [1%nat; length a] a)
  | _ => Raise TypeError
  end.

(** The function the source defines under the decorator. *)
Definition encode_observation_wrapped (observation : gmap string PyObj)
  : result Np.ndarray :=
  match observation !! LaserCollector_name with
  | Some o => newaxis_all o
  | None => Raise KeyError
  end.

(** Modelled from the spec: the rescaling of one value with the declared
    bounds [low] and [high]. *)
Definition rescale (mode : Normalization) (low high x : Q) : Q :=
  match mode with
  | no_normalization => x
  | rescale_unit => (x - low) / (high - low)
  | rescale_symmetric => 2 * ((x - low) / (high - low)) - 1
  end.

(** Modelled from the spec: [BaseObservationSpace.apply_normalization],
    the wrapper around every [encode_observation]: it calls the wrapped
    function and rescales its output elementwise. *)
Definition apply_normalization
    (func : gmap string PyObj -> result Np.ndarray)
    (s : self) (observation : gmap string PyObj) : result Np.ndarray :=
  out ← func observation;
  let space := get_gym_space s in
  mret (Np.mk_ndarray (Np.shape out)
          (map (rescale (_normalization s) (Gym.low space) (Gym.high space))
               (Np.data out))).

(** [encode_observation], decorated. *)
Definition encode_observation : self -> gmap string PyObj -> result Np.ndarray :=
  apply_normalization encode_observation_wrapped.

End LaserScanSpace.

(** ** The specification's wording, for comparison with the code *)

Module Spec.

Local Open Scope Q_scope.

(** *** Resampling (spec 4.1) *)

(** Target angle [θ_i = (i − Ntgt/2) · (2π/(Ntgt−1))] with [Ntgt = 720]. *)
Definition theta (i : nat) : Q :=
  (inject_Z (Z.of_nat i) - 360) * (2 * Np.pi / 719).

(** [Δ_src = 2π/(Nsrc−1)] with [Nsrc = 512]. *)
Definition Delta_src : Q := 2 * Np.pi / 511.

Definition clamp (x lo hi : Z) : Z := Z.max lo (Z.min hi x).

Definition idx_low (i : nat) : Z :=
  clamp (Qfloor ((theta i + Np.pi) / Delta_src)) 0 511.

Definition idx_high (i : nat) : Z :=
  clamp (Qceiling ((theta i + Np.pi) / Delta_src)) 0 511.

(** The angle of native beam [j], in the convention of [theta]: the index
    counted from the middle of the scan, times the increment. *)
Definition beam_angle (j : Z) : Q := (inject_Z j - 256) * Delta_src.

Definition at_index (laser : list Q) (j : Z) : Q := nth (Z.to_nat j) laser 0.

(** The interpolation weight [(θ_i − θ_low) / (θ_high − θ_low + ε)] with
    [ε = 1e-12]. *)
Definition weight (i : nat) : Q :=
  (theta i - beam_angle (idx_low i))
  / (beam_angle (idx_high i) - beam_angle (idx_low i) + (1 # 1000000000000)).

(** The linear interpolation at target index [i]. *)
Definition interpolate (laser : list Q) (i : nat) : Q :=
  at_index laser (idx_low i)
  + weight i * (at_index laser (idx_high i) - at_index laser (idx_low i)).

(** *** Pooling and tiling (spec 4.3) *)

(** The 80 contiguous groups of 9 of one scan. *)
Definition groups (scan : list Q) : list (list Q) :=
  map (fun i => take 9 (drop (9 * i) scan)) (seq 0 80).

(** The minimum and the mean of a group. *)
Definition group_min (g : list Q) : Q := fold_left Qmin (tail g) (hd 0 g).
Definition group_mean (g : list Q) : Q :=
  fold_left Qplus g 0 / inject_Z (Z.of_nat (length g)).

(** The 20×80 intermediate matrix as its list of rows: scan [n] gives row
    [2n] (minima) and row [2n+1] (means). *)
Definition intermediate (scans : list (list Q)) : list (list Q) :=
  flat_map (fun scan => [map group_min (groups scan); map group_mean (groups scan)])
           scans.

(** Flattened, tiled four times, as an 80×80 array. *)
Definition laser_map (scans : list (list Q)) : Np.ndarray :=
  let flat := concat (intermediate scans) in
  Np.mk_ndarray [80%nat; 80%nat] (flat ++ flat ++ flat ++ flat).

End Spec.

(** ** Encoder table of [rosnav/utils/constants.py] *)

Module Constants.


(** [RosnavEncoder["DefaultEncoder"]["lasers_to_adapted"]]: [lambda x: x] *)
Definition DefaultEncoder_lasers_to_adapted (x : Z) : Z := x.


End Constants.

(** ** Layer configuration of the ResNet feature extractors

  [rosnav/model/feature_extractors/resnet/resnet.py], the part of
  [RESNET_MID_FUSION_EXTRACTOR_1] and [RESNET_MID_FUSION_EXTRACTOR_2]
  that decides which residual blocks are built: [__init__] up to the
  attribute assignments, [_make_layer], and [_setup_network].

  Python list objects live in a [store] and are referred to by
  location, because the [layers] argument of [__init__] has a list as
  its default value: that list is one object, made when the class body
  runs, and [_setup_network] of the second extractor appends to the list
  it is given.

  The torch modules themselves are outside the model.  A call of the
  [block] class is recorded with the arguments it receives; the
  [norm_layer] argument, the same object in every call, is left out.
  The other constructors that [_setup_network] calls ([nn.Conv2d],
  [nn.Sequential], ...) assign attributes that the modelled code never
  reads and are taken to return.  An instance whose [_setup_network]
  raises is dropped with the exception. *)

Module ResNet.

Definition loc : Type := nat.

(** The list objects, by location. *)
Definition store : Type := loc -> list Z.

Definition store_set (h : store) (l : loc) (v : list Z) : store :=
  fun l' => if (l' =? l)%nat then v else h l'.

(** An optional argument of a call: left to the callee's default, or
    passed. *)
Inductive Arg (A : Type) : Type :=
| NotPassed
| Passed (a : A).
Arguments NotPassed {A}.
Arguments Passed {A} a.

(** [nn.Sequential(conv1x1(inplanes, out, stride), norm_layer(out))] *)
Record Downsample : Type := mk_downsample {
  conv_in : Z;
  conv_out : Z;
  conv_stride : Z;
  norm_features : Z
}.

(** One call [block(inplanes, planes, stride, downsample, groups,
    base_width, dilation, norm_layer)]. *)
Record BlockCall : Type := mk_block {
  b_inplanes : Z;
  b_planes : Z;
  b_stride : Arg Z;
  b_downsample : Arg (option Downsample);
  b_groups : Z;
  b_base_width : Z;
  b_dilation : Z
}.

(** The attributes of an extractor that the layer configuration reads or
    assigns.  [_block] is kept by its [expansion].  [inplanes],
    [dilation] and [base_width] do not exist before [_setup_network]
    assigns them; [_make_layer] is modelled for instances that have them,
    as in every call of the source. *)
Record self : Type := mk_self {
  _block_expansion : Z;
  _groups : Z;
  _layers : loc;
  _width_per_group : Z;
  _replace_stride_with_dilation : option (list bool);
  inplanes : Z;
  dilation : Z;
  base_width : Z;
  layer1 : option (list BlockCall);
  layer2 : option (list BlockCall);
  layer3 : option (list BlockCall);
  layer4 : option (list BlockCall)
}.

Definition set_replace_stride_with_dilation (v : option (list bool)) (s : self) : self :=
  mk_self (_block_expansion s) (_groups s) (_layers s) (_width_per_group s) v
    (inplanes s) (dilation s) (base_width s) (layer1 s) (layer2 s) (layer3 s) (layer4 s).

Definition set_inplanes (v : Z) (s : self) : self :=
  mk_self (_block_expansion s) (_groups s) (_layers s) (_width_per_group s)
    (_replace_stride_with_dilation s)
    v (dilation s) (base_width s) (layer1 s) (layer2 s) (layer3 s) (layer4 s).

Definition set_dilation (v : Z) (s : self) : self :=
  mk_self (_block_expansion s) (_groups s) (_layers s) (_width_per_group s)
    (_replace_stride_with_dilation s)
    (inplanes s) v (base_width s) (layer1 s) (layer2 s) (layer3 s) (layer4 s).

Definition set_base_width (v : Z) (s : self) : self :=
  mk_self (_block_expansion s) (_groups s) (_layers s) (_width_per_group s)
    (_replace_stride_with_dilation s)
    (inplanes s) (dilation s) v (layer1 s) (layer2 s) (layer3 s) (layer4 s).

Definition set_layer1 (v : list BlockCall) (s : self) : self :=
  mk_self (_block_expansion s) (_groups s) (_layers s) (_width_per_group s)
    (_replace_stride_with_dilation s)
    (inplanes s) (dilation s) (base_width s) (Some v) (layer2 s) (layer3 s) (layer4 s).

Definition set_layer2 (v : list BlockCall) (s : self) : self :=
  mk_self (_block_expansion s) (_groups s) (_layers s) (_width_per_group s)
    (_replace_stride_with_dilation s)
    (inplanes s) (dilation s) (base_width s) (layer1 s) (Some v) (layer3 s) (layer4 s).

Definition set_layer3 (v : list BlockCall) (s : self) : self :=
  mk_self (_block_expansion s) (_groups s) (_layers s) (_width_per_group s)
    (_replace_stride_with_dilation s)
    (inplanes s) (dilation s) (base_width s) (layer1 s) (layer2 s) (Some v) (layer4 s).

Definition set_layer4 (v : list BlockCall) (s : self) : self :=
  mk_self (_block_expansion s) (_groups s) (_layers s) (_width_per_group s)
    (_replace_stride_with_dilation s)
    (inplanes s) (dilation s) (base_width s) (layer1 s) (layer2 s) (layer3 s) (Some v).

(** [range(lo, hi)] *)
Definition range2 (lo hi : Z) : list Z :=
  map (fun k => (lo + Z.of_nat k)%Z) (seq 0 (Z.to_nat (hi - lo))).

(** [xs[i]] on a list, for an index [i >= 0]. *)
Definition list_getitem {A} (xs : list A) (i : nat) : result A :=
  match xs !! i with Some x => Ok x | None => Raise IndexError end.

(** The list object of the default argument [layers = [2, 1, 1]]. *)
Definition default_layers : loc := 0%nat.


Module RESNET_MID_FUSION_EXTRACTOR_1.

Local Open Scope Z_scope.

(** [__init__], the attribute assignments: [self._layers = layers] keeps
    the list object it is given, the default one when [layers] is left
    out.  The attributes that [_setup_network] assigns are given a
    placeholder, which it overwrites before it reads them. *)
Definition init (block_expansion : Z) (layers : option loc) (groups width_per_group : Z)
    (replace_stride_with_dilation : option (list bool)) : self :=
  mk_self block_expansion groups (default default_layers layers) width_per_group
    replace_stride_with_dilation 0 0 0 None None None None.

Definition _make_layer (planes blocks stride : Z) (dilate : bool) (s : self)
  : list BlockCall * self :=
  let previous_dilation := dilation s in
  let s := if dilate then set_dilation (dilation s * stride) s else s in
  let stride := if dilate then 1 else stride in
  let downsample :=
    if negb (stride =? 1) || negb (inplanes s =? planes * _block_expansion s)
    then Some (mk_downsample (inplanes s) (planes * _block_expansion s) stride
                 (planes * _block_expansion s))
    else None in
  let layers :=
    [mk_block (inplanes s) planes (Passed stride) (Passed downsample)
       (_groups s) (base_width s) previous_dilation] in
  let s := set_inplanes (planes * _block_expansion s) s in
  let layers :=
    foldl (fun layers _ =>
             layers ++ [mk_block (inplanes s) planes NotPassed NotPassed
                          (_groups s) (base_width s) (dilation s)])
      layers (range2 1 blocks) in
  (layers, s).

(** [replace] stands for [self._replace_stride_with_dilation] once the
    [None] of the default has been replaced by [[False] * len(self._layers)]. *)
Definition _setup_network (inplanes : Z) (h : store) (s : self) : result self :=
  let s := set_inplanes inplanes s in
  let s := set_dilation 1 s in
  let replace :=
    match _replace_stride_with_dilation s with
    | None => replicate (length (h (_layers s))) false
    | Some replace => replace
    end in
  let s := set_replace_stride_with_dilation (Some replace) s in
  if negb (length replace =? length (h (_layers s)))%nat then Raise ValueError else
  let s := set_base_width (_width_per_group s) s in
  n0 ← list_getitem (h (_layers s)) 0;
  let '(l1, s) := _make_layer 64 n0 1 false s in
  let s := set_layer1 l1 s in
  n1 ← list_getitem (h (_layers s)) 1;
  d0 ← list_getitem replace 0;
  let '(l2, s) := _make_layer 128 n1 2 d0 s in
  let s := set_layer2 l2 s in
  n2 ← list_getitem (h (_layers s)) 2;
  d1 ← list_getitem replace 1;
  let '(l3, s) := _make_layer 256 n2 2 d1 s in
  let s := set_layer3 l3 s in
  Ok s.

End RESNET_MID_FUSION_EXTRACTOR_1.

Module RESNET_MID_FUSION_EXTRACTOR_2.

Import RESNET_MID_FUSION_EXTRACTOR_1.
Local Open Scope Z_scope.

(** The same [__init__] and [_make_layer], inherited; [_setup_network]
    is overridden.  It returns the store as well: the append of its first
    statement stays when a later statement raises. *)
Definition _setup_network (inplanes : Z) (h : store) (s : self) : result self * store :=
  let h :=
    if (length (h (_layers s)) <? 4)%nat
    then store_set h (_layers s) (h (_layers s) ++ [1])
    else h in
  let run : result self :=
    let s := set_inplanes inplanes s in
    let s := set_dilation 1 s in
    let replace :=
      match _replace_stride_with_dilation s with
      | None => replicate (length (h (_layers s))) false
      | Some replace => replace
      end in
    let s := set_replace_stride_with_dilation (Some replace) s in
    if negb (length replace =? length (h (_layers s)))%nat then Raise ValueError else
    let s := set_base_width (_width_per_group s) s in
    n0 ← list_getitem (h (_layers s)) 0;
    let '(l1, s) := _make_layer 64 n0 1 false s in
    let s := set_layer1 l1 s in
    n1 ← list_getitem (h (_layers s)) 1;
    d0 ← list_getitem replace 0;
    let '(l2, s) := _make_layer 128 n1 2 d0 s in
    let s := set_layer2 l2 s in
    n2 ← list_getitem (h (_layers s)) 2;
    d1 ← list_getitem replace 1;
    let '(l3, s) := _make_layer 256 n2 2 d1 s in
    let s := set_layer3 l3 s in
    n3 ← list_getitem (h (_layers s)) 3;
    d2 ← list_getitem replace 2;
    let '(l4, s) := _make_layer 256 n3 1 d2 s in
    let s := set_layer4 l4 s in
    Ok s in
  (run, h).

End RESNET_MID_FUSION_EXTRACTOR_2.

End ResNet.

(** ** Auxiliary definitions for the proofs *)

(** The expressions of the resampling loop body, named, as functions of
    the source length [range_size] and the target index [i]. *)
Module Resample512.
Local Open Scope Q_scope.

Definition theta (i : nat) : Q :=
  (inject_Z (Z.of_nat i) - inject_Z 720 / 2) * (2 * Np.pi / (inject_Z 720 - 1)).
Definition angle_increment_orig (range_size : Z) : Q :=
  2 * Np.pi / (inject_Z range_size - 1).
Definition idx_low (range_size : Z) (i : nat) : Z :=
  Z.max 0 (Qfloor ((theta i + Np.pi) / angle_increment_orig range_size)).
Definition idx_high (range_size : Z) (i : nat) : Z :=
  Z.min (range_size - 1) (Qceiling ((theta i + Np.pi) / angle_increment_orig range_size)).
Definition beam_angle (range_size : Z) (idx : Z) : Q :=
  (inject_Z idx - inject_Z range_size / 2) * angle_increment_orig range_size.
Definition weight (range_size : Z) (i : nat) : Q :=
  (theta i - beam_angle range_size (idx_low range_size i))
  / ((1 # 1000000000000) + beam_angle range_size (idx_high range_size i)
     - beam_angle range_size (idx_low range_size i)).

(** Where target angle [i] falls among the 512 source beams, counted in
    beams: [(theta i + pi) / angle_increment_orig 512] with [pi] cancelled. *)
Definition position (i : nat) : Q :=
  (2 * inject_Z (Z.of_nat i) - 1) * 511 / 1438.

(** The one-sided clipping of the code and the two-sided clamp of the
    specification give the same indices at target index [i], and these lie
    within the source scan. *)
Definition agrees (i : nat) : bool :=
  let lo := Z.max 0 (Qfloor (position i)) in
  let hi := Z.min (512 - 1) (Qceiling (position i)) in
  (lo =? Spec.clamp (Qfloor (position i)) 0 511)%Z
  && (hi =? Spec.clamp (Qceiling (position i)) 0 511)%Z
  && (0 <=? lo)%Z && (lo <? 512)%Z && (0 <=? hi)%Z && (hi <? 512)%Z.
End Resample512.

Import StackedLaserMapSpace.
Local Open Scope Q_scope.

(** [s] with its deque replaced. *)
Definition with_queue (s : self) (q : list PyObj) : self :=
  mk_self q (_laser_stack_size s) (_feature_map_size s) (_roi_in_m s) (rosout s).

(** The length of the scan a call pushes, from the length of its input. *)
Definition pushed_length (a : list Q) : nat :=
  if (length a =? 512)%nat then 720%nat else length a.

(** One [encode_observation] call as seen by a caller that goes on after
    an exception: the instance it leaves. *)
Definition after_call (s : self) (call : gmap string PyObj * gmap string bool) : self :=
  (encode_observation call.1 call.2 s).2.

(** The instance after a sequence of calls. *)
Definition after_calls (s : self) (calls : list (gmap string PyObj * gmap string bool))
  : self :=
  fold_left after_call calls s.

(** Unfolds the monad of the methods down to state-passing functions. *)
Ltac run_M :=
  repeat progress
    unfold when, mbind, M_bind, mret, M_ret, get_attr, set_laser_queue, lift;
  cbn [_laser_queue _laser_stack_size _feature_map_size _roi_in_m rosout].





(** * Properties *)

(** ** Resampling *)

(** The loop body in terms of the named expressions. *)
Lemma resample_entry_unfold (a : list Q) (i : nat) :
  resample_entry a i =
  (let n := Z.of_nat (length a) in
   x_low ← getitem a (Resample512.idx_low n i);
   x_high ← getitem a (Resample512.idx_high n i);
   mret (x_low + Resample512.weight n i * (x_high - x_low))).
Proof. reflexivity. Qed.

(** [pi] cancels in the position of a target angle among the source
    beams, for the code's expression and for the specification's alike. *)
Lemma pi_nonzero : ¬ Np.pi == 0.
Proof. intros H. discriminate H. Qed.

Lemma code_position (i : nat) :
  (Resample512.theta i + Np.pi) / Resample512.angle_increment_orig 512
  == Resample512.position i.
Proof.
  unfold Resample512.theta, Resample512.angle_increment_orig, Resample512.position.
  pose proof pi_nonzero. generalize dependent Np.pi. intros p Hp.
  change (inject_Z 720) with 720. change (inject_Z 512) with 512.
  field. exact Hp.
Qed.

Lemma spec_position (i : nat) :
  (Spec.theta i + Np.pi) / Spec.Delta_src == Resample512.position i.
Proof.
  unfold Spec.theta, Spec.Delta_src, Resample512.position.
  pose proof pi_nonzero. generalize dependent Np.pi. intros p Hp.
  field. exact Hp.
Qed.

(** The code's angles are the specification's. *)
Lemma theta_eq (i : nat) : Resample512.theta i == Spec.theta i.
Proof.
  unfold Resample512.theta, Spec.theta.
  change (inject_Z 720) with 720. field.
Qed.

Lemma beam_angle_eq (j : Z) : Resample512.beam_angle 512 j == Spec.beam_angle j.
Proof.
  unfold Resample512.beam_angle, Spec.beam_angle, Resample512.angle_increment_orig,
    Spec.Delta_src.
  change (inject_Z 512) with 512. field.
Qed.

Lemma agrees_all : forallb Resample512.agrees (seq 0 720) = true.
Proof. vm_compute. reflexivity. Qed.

(** At every target index the code's indices are those of the
    specification and lie within a scan of length 512. *)
Lemma indices_512 (i : nat) :
  (i < 720)%nat →
  Resample512.idx_low 512 i = Spec.idx_low i
  ∧ Resample512.idx_high 512 i = Spec.idx_high i
  ∧ (0 <= Spec.idx_low i < 512)%Z
  ∧ (0 <= Spec.idx_high i < 512)%Z.
Proof.
  intros Hi. pose proof agrees_all as H.
  rewrite forallb_forall in H. specialize (H i). rewrite in_seq in H.
  specialize (H ltac:(lia)). unfold Resample512.agrees in H. cbv zeta in H.
  repeat (apply andb_prop in H; destruct H as [H ?]).
  repeat match goal with
         | H : (_ =? _)%Z = true |- _ => apply Z.eqb_eq in H
         | H : (_ <=? _)%Z = true |- _ => apply Z.leb_le in H
         | H : (_ <? _)%Z = true |- _ => apply Z.ltb_lt in H
         end.
  unfold Resample512.idx_low, Resample512.idx_high, Spec.idx_low, Spec.idx_high.
  rewrite (Qfloor_comp _ _ (code_position i)), (Qceiling_comp _ _ (code_position i)).
  rewrite (Qfloor_comp _ _ (spec_position i)), (Qceiling_comp _ _ (spec_position i)).
  repeat split; congruence || lia.
Qed.

Lemma weight_512 (i : nat) :
  (i < 720)%nat → Resample512.weight 512 i == Spec.weight i.
Proof.
  intros Hi. destruct (indices_512 i Hi) as (Hlow & Hhigh & _).
  unfold Resample512.weight, Spec.weight. rewrite Hlow, Hhigh.
  rewrite theta_eq, !beam_angle_eq.
  apply Qdiv_comp; [reflexivity | ring].
Qed.

(** Indexing within bounds succeeds. *)
Lemma getitem_in_range (a : list Q) (j : Z) :
  (0 <= j < Z.of_nat (length a))%Z →
  getitem a j = Ok (Spec.at_index a j).
Proof.
  intros [H0 H1]. unfold getitem, Spec.at_index.
  destruct (Z.ltb_spec j 0) as [?|_]; [lia|].
  destruct (Z.leb_spec 0 j) as [_|?]; [|lia].
  destruct (Z.ltb_spec j (Z.of_nat (length a))) as [_|?]; [|lia].
  cbn [andb].
  destruct (a !! Z.to_nat j) as [x|] eqn:E.
  - f_equal. symmetry. apply nth_lookup_Some with (d := 0) in E. exact E.
  - apply lookup_ge_None in E. lia.
Qed.

(** At a source length of 512 every loop iteration of the resampling block
    succeeds, with the interpolated value of the specification. *)
Lemma resample_entry_512 (a : list Q) (i : nat) :
  length a = 512%nat → (i < 720)%nat →
  ∃ v, resample_entry a i = Ok v ∧ v == Spec.interpolate a i.
Proof.
  intros Hlen Hi. rewrite resample_entry_unfold, Hlen.
  change (Z.of_nat 512) with 512%Z. cbv zeta.
  destruct (indices_512 i Hi) as (Hlow & Hhigh & Hrlow & Hrhigh).
  rewrite Hlow, Hhigh.
  rewrite !getitem_in_range by (rewrite Hlen; lia).
  eexists. split; [reflexivity|].
  unfold Spec.interpolate. rewrite (weight_512 i Hi). reflexivity.
Qed.

(** Loops over [range]. *)
Lemma for_each_app {A S} (xs ys : list A) (body : A → S → result S) (s : S) :
  for_each (xs ++ ys) body s =
  match for_each xs body s with
  | Ok s' => for_each ys body s'
  | Raise e => Raise e
  end.
Proof.
  revert s. induction xs as [|x xs IH]; intros s; cbn; [done|].
  destruct (body x s); [apply IH | done].
Qed.

Lemma range_S (n : nat) : range (S n) = range n ++ [n].
Proof. unfold range. rewrite seq_S. reflexivity. Qed.

(** A loop that assigns [acc[i] = f(i)] for [i] in [range(n)]. *)
Lemma for_each_assign (f : nat → result Q) (g : nat → Q) (n : nat) (acc : list Q) :
  (∀ i, (i < n)%nat → f i = Ok (g i)) →
  ∃ acc',
    for_each (range n) (fun i acc => v ← f i; mret (<[i := v]> acc)) acc = Ok acc'
    ∧ length acc' = length acc
    ∧ (∀ i, (i < n)%nat → (i < length acc)%nat → acc' !! i = Some (g i))
    ∧ (∀ i, (n <= i)%nat → acc' !! i = acc !! i).
Proof.
  intros Hf. induction n as [|n IH].
  - exists acc. split; [reflexivity|]. split; [reflexivity|].
    split; [intros; lia | done].
  - destruct IH as (acc1 & Hrun & Hlen & Hset & Hrest); [intros; apply Hf; lia|].
    exists (<[n := g n]> acc1).
    rewrite range_S, for_each_app, Hrun. cbn [for_each].
    rewrite Hf by lia. cbn [mbind result_bind mret result_ret].
    split; [reflexivity|]. rewrite length_insert.
    split; [exact Hlen|]. split.
    + intros i Hi Hil. destruct (decide (i = n)) as [->|Hne].
      * apply list_lookup_insert_eq. lia.
      * rewrite list_lookup_insert_ne by lia. apply Hset; lia.
    + intros i Hi. rewrite list_lookup_insert_ne by lia. apply Hrest. lia.
Qed.

(** The whole resampling block on a scan of length 512. *)
Lemma resample_512 (a : list Q) :
  length a = 512%nat →
  ∃ b, resample a = Ok b ∧ length b = 720%nat
       ∧ ∀ i, (i < 720)%nat → ∃ v, b !! i = Some v ∧ v == Spec.interpolate a i.
Proof.
  intros Hlen. unfold resample.
  set (g := fun i => match resample_entry a i with Ok v => v | Raise _ => 0 end).
  destruct (for_each_assign (resample_entry a) g 720 (Np.zeros1 720))
    as (b & Hrun & Hb & Hset & _).
  { intros i Hi. destruct (resample_entry_512 a i Hlen Hi) as (v & Hv & _).
    unfold g. rewrite Hv. reflexivity. }
  exists b. split; [exact Hrun|].
  unfold Np.zeros1 in Hb, Hset. rewrite length_replicate in Hb, Hset.
  split; [exact Hb|].
  intros i Hi. exists (g i). split; [apply Hset; lia|].
  destruct (resample_entry_512 a i Hlen Hi) as (v & Hv & Hspec).
  unfold g. rewrite Hv. exact Hspec.
Qed.

(** ** Pooling *)


(** The slices of the inner loop are the groups of the specification:
    nine readings each, so that their minimum exists. *)
Lemma slice_group (scan : list Q) (i : nat) :
  slice scan (i * 9) ((i + 1) * 9) = take 9 (drop (9 * i) scan).
Proof.
  unfold slice. replace ((i + 1) * 9 - i * 9)%nat with 9%nat by lia.
  replace (i * 9)%nat with (9 * i)%nat by lia. reflexivity.
Qed.

Lemma group_length (scan : list Q) (i : nat) :
  length scan = 720%nat → (i < 80)%nat → length (take 9 (drop (9 * i) scan)) = 9%nat.
Proof. intros H Hi. rewrite length_take, length_drop. lia. Qed.

Lemma np_min_group (g : list Q) :
  g ≠ [] → Np.min g = Ok (Spec.group_min g).
Proof. destruct g; [done | reflexivity]. Qed.

Lemma np_mean_group (g : list Q) : Np.mean g = Spec.group_mean g.
Proof. reflexivity. Qed.

Lemma setitem2_20_80 (d : list Q) (r c : nat) (v : Q) :
  (r < 20)%nat → (c < 80)%nat →
  Np.setitem2 (Np.mk_ndarray [20%nat; 80%nat] d) r c v
  = Ok (Np.mk_ndarray [20%nat; 80%nat] (<[(r * 80 + c)%nat := v]> d)).
Proof.
  intros Hr Hc. unfold Np.setitem2. cbn [Np.shape Np.data].
  destruct (Nat.ltb_spec r 20); [|lia]. destruct (Nat.ltb_spec c 80); [|lia].
  reflexivity.
Qed.

(** The inner loop of the pooling, stopped after [m] columns: cells
    [(2n, i)] and [(2n+1, i)] for [i < m] hold the minimum and the mean of
    group [i]; every other cell is as before. *)
Lemma pool_inner (n : nat) (scan d : list Q) (m : nat) :
  (n < 10)%nat → length scan = 720%nat → (m <= 80)%nat → length d = 1600%nat →
  ∃ d',
    for_each (range m)
      (fun i scan_avg =>
         v ← Np.min (slice scan (i * 9) ((i + 1) * 9));
         scan_avg ← Np.setitem2 scan_avg (2 * n) i v;
         Np.setitem2 scan_avg (2 * n + 1) i
           (Np.mean (slice scan (i * 9) ((i + 1) * 9))))
      (Np.mk_ndarray [20%nat; 80%nat] d)
    = Ok (Np.mk_ndarray [20%nat; 80%nat] d')
    ∧ length d' = 1600%nat
    ∧ ∀ k,
        d' !! k =
        if decide (160 * n <= k < 160 * n + m)%nat
        then Some (Spec.group_min (take 9 (drop (9 * (k - 160 * n)) scan)))
        else if decide (160 * n + 80 <= k < 160 * n + 80 + m)%nat
        then Some (Spec.group_mean (take 9 (drop (9 * (k - 160 * n - 80)) scan)))
        else d !! k.
Proof.
  intros Hn Hscan Hm Hd. induction m as [|m IH].
  - exists d. split; [reflexivity|]. split; [exact Hd|].
    intros k. repeat case_decide; (lia || reflexivity).
  - destruct IH as (d1 & Hrun & Hd1 & Hget); [lia|].
    rewrite range_S, for_each_app, Hrun. cbn [for_each].
    rewrite slice_group.
    rewrite np_min_group, np_mean_group.
    2:{ intros E. apply (f_equal length) in E.
        rewrite group_length in E by (done || lia). discriminate. }
    cbn [mbind result_bind].
    rewrite setitem2_20_80 by lia. cbn [mbind result_bind].
    rewrite setitem2_20_80 by lia.
    eexists. split; [reflexivity|]. rewrite !length_insert.
    split; [exact Hd1|].
    intros k.
    destruct (decide (k = ((2 * n + 1) * 80 + m)%nat)) as [->|Hk1].
    { rewrite list_lookup_insert_eq by (rewrite length_insert; lia).
      repeat case_decide; try lia.
      repeat f_equal; lia. }
    rewrite list_lookup_insert_ne by lia.
    destruct (decide (k = (2 * n * 80 + m)%nat)) as [->|Hk2].
    { rewrite list_lookup_insert_eq by lia.
      repeat case_decide; try lia.
      repeat f_equal; lia. }
    rewrite list_lookup_insert_ne by lia.
    rewrite Hget. repeat case_decide; (lia || reflexivity).
Qed.

(** Rows and groups of the specification, by index. *)
Lemma lookup_map {A B} (f : A → B) (l : list A) (k : nat) :
  map f l !! k = f <$> (l !! k).
Proof. exact (list_lookup_fmap f l k). Qed.

Lemma length_groups (scan : list Q) : length (Spec.groups scan) = 80%nat.
Proof. unfold Spec.groups. rewrite length_map, length_seq. reflexivity. Qed.

Lemma lookup_groups (scan : list Q) (j : nat) :
  (j < 80)%nat → Spec.groups scan !! j = Some (take 9 (drop (9 * j) scan)).
Proof.
  intros Hj. unfold Spec.groups. rewrite lookup_map, lookup_seq_lt by lia.
  reflexivity.
Qed.

(** One full pass of the inner loop writes the row of minima and the row
    of means of [scan] in place. *)
Lemma pool_row (n : nat) (scan d : list Q) :
  (n < 10)%nat → length scan = 720%nat → length d = 1600%nat →
  for_each (range 80)
    (fun i scan_avg =>
       v ← Np.min (slice scan (i * 9) ((i + 1) * 9));
       scan_avg ← Np.setitem2 scan_avg (2 * n) i v;
       Np.setitem2 scan_avg (2 * n + 1) i
         (Np.mean (slice scan (i * 9) ((i + 1) * 9))))
    (Np.mk_ndarray [20%nat; 80%nat] d)
  = Ok (Np.mk_ndarray [20%nat; 80%nat]
          (take (160 * n) d
           ++ map Spec.group_min (Spec.groups scan)
           ++ map Spec.group_mean (Spec.groups scan)
           ++ drop (160 * n + 160) d)).
Proof.
  intros Hn Hscan Hd.
  destruct (pool_inner n scan d 80 Hn Hscan (le_n _) Hd) as (d' & Hrun & Hd' & Hget).
  rewrite Hrun. do 2 f_equal.
  apply list_eq. intros k. rewrite Hget.
  assert (Htake : length (take (160 * n) d) = (160 * n)%nat)
    by (rewrite length_take; lia).
  assert (Hmin : length (map Spec.group_min (Spec.groups scan)) = 80%nat)
    by (rewrite length_map; apply length_groups).
  assert (Hmean : length (map Spec.group_mean (Spec.groups scan)) = 80%nat)
    by (rewrite length_map; apply length_groups).
  destruct (decide (k < 160 * n)%nat) as [Hk|Hk].
  { rewrite lookup_app_l by lia. rewrite lookup_take_lt by lia.
    repeat case_decide; (lia || reflexivity). }
  rewrite lookup_app_r by lia. rewrite Htake.
  destruct (decide (k < 160 * n + 80)%nat) as [Hk1|Hk1].
  { rewrite lookup_app_l by lia.
    rewrite lookup_map, lookup_groups by lia.
    repeat case_decide; (lia || reflexivity). }
  rewrite lookup_app_r by lia. rewrite Hmin.
  destruct (decide (k < 160 * n + 160)%nat) as [Hk2|Hk2].
  { rewrite lookup_app_l by lia.
    rewrite lookup_map, lookup_groups by lia.
    repeat case_decide; try lia. cbn. repeat f_equal; lia. }
  rewrite lookup_app_r by lia. rewrite Hmean, lookup_drop.
  repeat case_decide; try lia. f_equal. lia.
Qed.

(** The flattened intermediate matrix grows by 160 cells per scan. *)
Lemma length_intermediate (scans : list (list Q)) :
  length (concat (Spec.intermediate scans)) = (160 * length scans)%nat.
Proof.
  unfold Spec.intermediate. induction scans as [|s scans IH]; [reflexivity|].
  cbn [flat_map app concat length].
  rewrite !length_app, !length_map, length_groups, IH. lia.
Qed.

Lemma intermediate_snoc (scans : list (list Q)) (scan : list Q) :
  concat (Spec.intermediate (scans ++ [scan]))
  = concat (Spec.intermediate scans)
    ++ map Spec.group_min (Spec.groups scan)
    ++ map Spec.group_mean (Spec.groups scan).
Proof.
  unfold Spec.intermediate. rewrite flat_map_app, concat_app.
  cbn [flat_map concat app]. rewrite ?app_nil_r. reflexivity.
Qed.

(** Scan [n] is the [n]-th stretch of 720 of the flattened deque. *)
Lemma slice_concat (scans : list (list Q)) (n : nat) (scan : list Q) :
  Forall (fun s => length s = 720%nat) scans →
  scans !! n = Some scan →
  slice (concat scans) (n * 720) ((n + 1) * 720) = scan.
Proof.
  intros Hall. revert n. induction Hall as [|s scans Hs Hall IH]; intros n Hn; [done|].
  unfold slice in *. replace ((n + 1) * 720 - n * 720)%nat with 720%nat in * by lia.
  destruct n as [|n]; cbn [concat].
  - cbn in Hn. injection Hn as ->. change (0 * 720)%nat with 0%nat.
    rewrite drop_0. rewrite take_app_length'; done.
  - cbn in Hn. replace (S n * 720)%nat with (length s + n * 720)%nat by lia.
    rewrite drop_app_add. specialize (IH n Hn).
    replace ((n + 1) * 720 - n * 720)%nat with 720%nat in IH by lia. exact IH.
Qed.

(** A deque of equally long scans converts to its concatenation. *)
Lemma mapM_as_row (scans : list (list Q)) :
  mapM Np.as_row (map PyArray scans) = Some scans.
Proof.
  induction scans as [|s scans IH]; [reflexivity|].
  cbn. cbn in IH. rewrite IH. reflexivity.
Qed.

Lemma array_flatten_scans (scans : list (list Q)) (len : nat) :
  Forall (fun s => length s = len) scans →
  Np.array_flatten (map PyArray scans) = Ok (concat scans).
Proof.
  intros Hall. destruct scans as [|s scans]; [reflexivity|].
  unfold Np.array_flatten. cbn [map].
  change (PyArray s :: map PyArray scans) with (map PyArray (s :: scans)).
  rewrite (mapM_as_row (s :: scans)).
  replace (forallb _ (s :: scans)) with true; [reflexivity|].
  symmetry. apply forallb_forall. intros r Hr. apply Nat.eqb_eq.
  rewrite Forall_forall in Hall.
  assert (Hr' : length r = len) by (apply Hall, list_elem_of_In, Hr).
  assert (Hs : length s = len) by (apply Hall; left).
  rewrite Hr', Hs. reflexivity.
Qed.

(** The outer loop of the pooling, stopped after [m] scans. *)
Lemma pool_outer (scans : list (list Q)) (m : nat) :
  length scans = 10%nat → Forall (fun s => length s = 720%nat) scans →
  (m <= 10)%nat →
  for_each (range m)
    (fun n scan_avg =>
       let scan_tmp := slice (concat scans) (n * 720) ((n + 1) * 720) in
       for_each (range 80)
         (fun i scan_avg =>
            v ← Np.min (slice scan_tmp (i * 9) ((i + 1) * 9));
            scan_avg ← Np.setitem2 scan_avg (2 * n) i v;
            Np.setitem2 scan_avg (2 * n + 1) i
              (Np.mean (slice scan_tmp (i * 9) ((i + 1) * 9))))
         scan_avg)
    (Np.zeros [20%nat; 80%nat])
  = Ok (Np.mk_ndarray [20%nat; 80%nat]
          (concat (Spec.intermediate (take m scans))
           ++ replicate (1600 - 160 * m) 0%Q)).
Proof.
  intros Hlen Hall Hm. induction m as [|m IH].
  - reflexivity.
  - rewrite range_S, for_each_app, IH by lia. cbn [for_each]. cbv zeta.
    destruct (scans !! m) as [scan|] eqn:Hscan;
      [|apply lookup_ge_None in Hscan; lia].
    rewrite (slice_concat scans m scan Hall Hscan).
    assert (Hs : length scan = 720%nat).
    { rewrite Forall_forall in Hall. apply Hall.
      apply list_elem_of_lookup. eauto. }
    assert (HP : length (concat (Spec.intermediate (take m scans))) = (160 * m)%nat).
    { rewrite length_intermediate, length_take. lia. }
    rewrite pool_row; [|lia|exact Hs|rewrite length_app, HP, length_replicate; lia].
    do 2 f_equal.
    rewrite take_app_length' by (symmetry; exact HP).
    rewrite (take_S_r scans m scan Hscan), intermediate_snoc.
    rewrite <- !app_assoc. do 3 f_equal.
    rewrite drop_app_add' by (symmetry; exact HP). rewrite drop_replicate.
    f_equal. lia.
Qed.

(** On ten scans of length 720 the [try] block computes the map of the
    specification. *)
Lemma build_try_spec (scans : list (list Q)) :
  length scans = 10%nat → Forall (fun s => length s = 720%nat) scans →
  _build_laser_map_try (map PyArray scans) = Ok (Spec.laser_map scans).
Proof.
  intros Hlen Hall. unfold _build_laser_map_try.
  rewrite (array_flatten_scans scans 720 Hall). cbn [mbind result_bind].
  pose proof (pool_outer scans 10 Hlen Hall (le_n _)) as Hloop.
  cbn [mbind result_bind] in Hloop. rewrite Hloop. clear Hloop.
  cbn [mbind result_bind].
  rewrite take_ge by lia. replace (1600 - 160 * 10)%nat with 0%nat by lia.
  cbn [replicate]. rewrite app_nil_r.
  assert (HP : length (concat (Spec.intermediate scans)) = 1600%nat).
  { rewrite length_intermediate. lia. }
  unfold Np.reshape at 2. cbn [Np.data Np.size_of foldr].
  rewrite HP. rewrite Nat.mul_1_r, Nat.eqb_refl. cbn [mbind result_bind].
  unfold Np.reshape, Np.repmat_1. cbn [Np.data Np.tile].
  rewrite app_nil_r.
  replace (Np.size_of [80%nat; 80%nat] =? _)%nat with true; [reflexivity|].
  symmetry. apply Nat.eqb_eq. cbn [Np.size_of foldr].
  rewrite !length_app, HP. lia.
Qed.

(** ** Running the methods *)


(** [_build_laser_map] by cases on its [try] block. *)
Lemma build_run (q : list PyObj) (s : self) :
  _build_laser_map q s =
  match _build_laser_map_try q with
  | Ok m => (Ok m, s)
  | Raise e =>
      (Ok (Np.zeros [(_feature_map_size s * _feature_map_size s)%nat]),
       mk_self (_laser_queue s) (_laser_stack_size s) (_feature_map_size s)
         (_roi_in_m s) (logwarn_cannot_build e :: rosout s))
  end.
Proof.
  unfold _build_laser_map, try_except.
  destruct (_build_laser_map_try q); reflexivity.
Qed.

Lemma build_run_queue (q : list PyObj) (s : self) :
  ∃ m s', _build_laser_map q s = (Ok m, s')
          ∧ _laser_queue s' = _laser_queue s
          ∧ _laser_stack_size s' = _laser_stack_size s
          ∧ _feature_map_size s' = _feature_map_size s
          ∧ _roi_in_m s' = _roi_in_m s.
Proof.
  rewrite build_run. destruct (_build_laser_map_try q); eauto 10.
Qed.

(** The scan the method pushes: the input, or its resampling when the
    input has length 512. *)
Lemma canonical_scan (a : list Q) :
  ∃ b, (if (length a =? 512)%nat then resample a else Ok a) = Ok b
       ∧ length b = pushed_length a
       ∧ ((length a ≠ 512)%nat → b = a).
Proof.
  unfold pushed_length. destruct (Nat.eqb_spec (length a) 512) as [H|H].
  - destruct (resample_512 a H) as (b & Hb & Hlen & _). exists b. done.
  - exists a. done.
Qed.

Local Opaque resample _build_laser_map_try.

(** One call of [_process_laser_scan] on an array, spelled out. *)
Lemma process_array_run (a : list Q) (done : bool) (s : self) :
  ∃ b, (if (length a =? 512)%nat then resample a else Ok a) = Ok b ∧
  let q0 := if (length (_laser_queue s) =? 0)%nat
            then replicate (_laser_stack_size s) (PyArray (Np.zeros_like a))
            else _laser_queue s in
  match last q0 with
  | None =>
      _process_laser_scan (PyArray a) done s = (Raise IndexError, with_queue s q0)
  | Some _ =>
      let q1 := PyArray b :: take (length q0 - 1) q0 in
      ∃ m s1,
        _build_laser_map q1 (with_queue s q1) = (Ok m, s1)
        ∧ _laser_queue s1 = q1
        ∧ _laser_stack_size s1 = _laser_stack_size s
        ∧ _feature_map_size s1 = _feature_map_size s
        ∧ _roi_in_m s1 = _roi_in_m s
        ∧ _process_laser_scan (PyArray a) done s
          = (Ok m,
             if done
             then with_queue s1 (replicate (_laser_stack_size s1)
                                   (PyArray (Np.zeros_like b)))
             else s1)
  end.
Proof.
  destruct (canonical_scan a) as (b & Hb & _). exists b. split; [exact Hb|].
  destruct s as [q n f r l]. unfold with_queue.
  cbn [_laser_queue _laser_stack_size _feature_map_size _roi_in_m rosout].
  unfold _process_laser_scan, _reset_laser_stack, deque_pop, deque_appendleft.
  run_M.
  destruct (length a =? 512)%nat;
    [rewrite Hb | injection Hb as <-];
    destruct (length q =? 0)%nat;
    cbn [_laser_queue _laser_stack_size _feature_map_size _roi_in_m rosout].
  all: match goal with |- context [last ?q0] => destruct (last q0) eqn:Hlast end.
  all: cbn [_laser_queue _laser_stack_size _feature_map_size _roi_in_m rosout].
  all: try reflexivity.
  all: match goal with
       | |- context [_build_laser_map ?q1 ?s1] =>
           destruct (build_run_queue q1 s1) as (m & s1' & Hrun & Hq & Hn & Hf & Hr);
           rewrite Hrun; exists m, s1'; split; [reflexivity|];
           cbn [_laser_queue _laser_stack_size _feature_map_size _roi_in_m] in Hq, Hn, Hf, Hr;
           do 4 (split; [assumption|])
       end.
  all: destruct done; destruct s1'; reflexivity.
Qed.

Lemma last_None_nil {A} (l : list A) : last l = None → l = [].
Proof. intros H. apply last_None in H. exact H. Qed.

(** [encode_observation] once the laser channel is found. *)
Lemma encode_run (observation : gmap string PyObj) (kwargs : gmap string bool)
    (o : PyObj) (s : self) :
  observation !! OBS_DICT_KEYS_LASER = Some o →
  encode_observation observation kwargs s =
  match _process_laser_scan o (default false (kwargs !! OBS_DICT_KEYS_DONE)) s with
  | (Ok m, s') => (Ok (Np.flatten m), s')
  | (Raise e, s') => (Raise e, s')
  end.
Proof.
  intros Hobs. unfold encode_observation. rewrite Hobs. run_M.
  destruct (_process_laser_scan _ _ s) as [[m|e] s']; reflexivity.
Qed.

(** A call on an array with a stack size above zero pushes the canonical
    scan to the front of the deque and returns a map. *)
Lemma process_pushes (a : list Q) (s : self) :
  (0 < _laser_stack_size s)%nat →
  ∃ b m s',
    (if (length a =? 512)%nat then resample a else Ok a) = Ok b
    ∧ _process_laser_scan (PyArray a) false s = (Ok m, s')
    ∧ head (_laser_queue s') = Some (PyArray b).
Proof.
  intros Hsize. destruct (process_array_run a false s) as (b & Hb & Hrun).
  exists b. cbv zeta in Hrun.
  destruct (last _) eqn:Hlast in Hrun.
  - destruct Hrun as (m & s1 & _ & Hq & _ & _ & _ & Hrun).
    exists m, s1. rewrite Hq. done.
  - apply last_None_nil in Hlast.
    destruct (Nat.eqb_spec (length (_laser_queue s)) 0) as [H0|H0].
    + apply (f_equal length) in Hlast. rewrite length_replicate in Hlast.
      cbn in Hlast. lia.
    + rewrite Hlast in H0. done.
Qed.

(** A push on a non-empty deque removes the rightmost, oldest entry and
    inserts the new scan at the front. *)
Lemma process_push_front (a : list Q) (s : self) :
  _laser_queue s ≠ [] →
  ∃ b, (if (length a =? 512)%nat then resample a else Ok a) = Ok b
       ∧ _laser_queue (_process_laser_scan (PyArray a) false s).2
         = PyArray b :: take (length (_laser_queue s) - 1) (_laser_queue s).
Proof.
  intros Hne. destruct (process_array_run a false s) as (b & Hb & Hrun).
  exists b. split; [exact Hb|]. cbv zeta in Hrun.
  destruct (Nat.eqb_spec (length (_laser_queue s)) 0) as [H0|_].
  { destruct (_laser_queue s); [done | discriminate H0]. }
  destruct (last (_laser_queue s)) eqn:Hlast.
  - destruct Hrun as (m & s1 & _ & Hq & _ & _ & _ & Hrun). rewrite Hrun. exact Hq.
  - apply last_None_nil in Hlast. done.
Qed.

(** The state after a call on an array: the deque has [_laser_stack_size]
    entries as soon as it was empty or full before, and on [done] it is the
    all-zero stack whatever it held. *)
Lemma process_array_state (a : list Q) (done : bool) (s : self) :
  let s' := (_process_laser_scan (PyArray a) done s).2 in
  _laser_stack_size s' = _laser_stack_size s
  ∧ (done = true →
     _laser_queue s'
     = replicate (_laser_stack_size s) (PyArray (Np.zeros1 (pushed_length a))))
  ∧ (_laser_queue s = [] ∨ length (_laser_queue s) = _laser_stack_size s →
     length (_laser_queue s') = _laser_stack_size s).
Proof.
  destruct (process_array_run a done s) as (b & Hb & Hrun).
  assert (Hlenb : length b = pushed_length a).
  { destruct (canonical_scan a) as (b' & Hb' & Hlen & _). congruence. }
  cbv zeta in Hrun.
  set (q0 := if (length (_laser_queue s) =? 0)%nat then _ else _) in Hrun.
  assert (Hq0 : _laser_queue s = [] ∨ length (_laser_queue s) = _laser_stack_size s →
                length q0 = _laser_stack_size s).
  { subst q0. destruct (Nat.eqb_spec (length (_laser_queue s)) 0) as [H0|H0].
    - intros _. apply length_replicate.
    - intros [Hnil|Hfull]; [rewrite Hnil in H0; done | exact Hfull]. }
  assert (Hnil : q0 = [] → _laser_stack_size s = 0%nat).
  { subst q0. destruct (Nat.eqb_spec (length (_laser_queue s)) 0) as [H0|H0].
    - intros E. apply (f_equal length) in E. rewrite length_replicate in E. exact E.
    - intros E. rewrite E in H0. done. }
  destruct (last q0) eqn:Hlast.
  - destruct Hrun as (m & s1 & _ & Hq & Hn & _ & _ & Hrun). rewrite Hrun.
    cbn [snd]. destruct done; cbn [with_queue _laser_queue _laser_stack_size].
    + split; [exact Hn|]. split.
      * intros _. rewrite Hn. unfold Np.zeros_like, Np.zeros1. rewrite Hlenb. done.
      * intros _. rewrite length_replicate. exact Hn.
    + split; [exact Hn|]. split; [done|].
      intros Hinv. rewrite Hq. cbn [length]. rewrite length_take.
      specialize (Hq0 Hinv). destruct q0; [done|]. cbn [length] in *. lia.
  - rewrite Hrun. cbn [snd with_queue _laser_queue _laser_stack_size].
    apply last_None_nil in Hlast. specialize (Hnil Hlast). rewrite Hlast, Hnil.
    done.
Qed.

(** ** Pooling: rows and bounds *)

(** The intermediate matrix has two rows per scan, minima then means. *)
Lemma length_intermediate_rows (scans : list (list Q)) :
  length (Spec.intermediate scans) = (2 * length scans)%nat.
Proof.
  unfold Spec.intermediate. induction scans as [|s scans IH]; [reflexivity|].
  cbn [flat_map app length]. rewrite IH. lia.
Qed.

Lemma intermediate_rows (scans : list (list Q)) (n : nat) (scan : list Q) :
  scans !! n = Some scan →
  Spec.intermediate scans !! (2 * n)%nat = Some (map Spec.group_min (Spec.groups scan))
  ∧ Spec.intermediate scans !! (2 * n + 1)%nat
    = Some (map Spec.group_mean (Spec.groups scan)).
Proof.
  revert n. induction scans as [|s scans IH]; intros n Hn; [done|].
  destruct n as [|n].
  - cbn in Hn. injection Hn as ->. split; reflexivity.
  - cbn in Hn. destruct (IH n Hn) as [H1 H2].
    replace (2 * S n)%nat with (S (S (2 * n))) by lia.
    replace (S (S (2 * n)) + 1)%nat with (S (S (2 * n + 1))) by lia.
    split; [exact H1 | exact H2].
Qed.

(** [group_min] is a lower bound of the group and one of its members. *)
Lemma fold_Qmin_le (xs : list Q) (x : Q) :
  fold_left Qmin xs x <= x ∧ Forall (fun y => fold_left Qmin xs x <= y) xs.
Proof.
  revert x. induction xs as [|y xs IH]; intros x; cbn [fold_left].
  - split; [apply Qle_refl | constructor].
  - destruct (IH (Qmin x y)) as [H1 H2]. split.
    + eapply Qle_trans; [exact H1 | apply Q.le_min_l].
    + constructor; [eapply Qle_trans; [exact H1 | apply Q.le_min_r] | exact H2].
Qed.

Lemma Qmin_cases (x y : Q) : Qmin x y = x ∨ Qmin x y = y.
Proof. unfold Qmin, GenericMinMax.gmin. destruct (x ?= y); auto. Qed.

Lemma fold_Qmin_In (xs : list Q) (x : Q) : In (fold_left Qmin xs x) (x :: xs).
Proof.
  revert x. induction xs as [|y xs IH]; intros x; cbn [fold_left].
  - left. reflexivity.
  - destruct (IH (Qmin x y)) as [H|H].
    + rewrite <- H.
      destruct (Qmin_cases x y) as [-> | ->]; [left | right; left]; reflexivity.
    + right. right. exact H.
Qed.

Lemma group_min_least (g : list Q) :
  g ≠ [] → In (Spec.group_min g) g ∧ Forall (fun y => Spec.group_min g <= y) g.
Proof.
  destruct g as [|x xs]; [done|]. intros _. unfold Spec.group_min. cbn [hd tail].
  split; [apply fold_Qmin_In|].
  destruct (fold_Qmin_le xs x) as [H1 H2]. constructor; assumption.
Qed.

(** A sum of readings within bounds, and so their mean, stays within
    the bounds scaled by the count. *)
Lemma fold_Qplus_bounds (lo hi : Q) (g : list Q) (acc : Q) :
  (∀ y, In y g → lo <= y <= hi) →
  acc + lo * inject_Z (Z.of_nat (length g)) <= fold_left Qplus g acc
  ∧ fold_left Qplus g acc <= acc + hi * inject_Z (Z.of_nat (length g)).
Proof.
  revert acc. induction g as [|x g IH]; intros acc Hg.
  - cbn [fold_left length]. change (inject_Z (Z.of_nat 0)) with 0. split; lra.
  - cbn [fold_left length]. rewrite Nat2Z.inj_succ, <- Z.add_1_r, inject_Z_plus.
    destruct (IH (acc + x)) as [H1 H2]; [intros y Hy; apply Hg; right; exact Hy|].
    destruct (Hg x) as [Hx1 Hx2]; [left; reflexivity|].
    change (inject_Z 1) with 1. split; lra.
Qed.

Lemma group_mean_bounds (lo hi : Q) (g : list Q) :
  g ≠ [] → (∀ y, In y g → lo <= y <= hi) →
  lo <= Spec.group_mean g <= hi.
Proof.
  intros Hne Hg. unfold Spec.group_mean.
  destruct (fold_Qplus_bounds lo hi g 0 Hg) as [H1 H2].
  assert (Hpos : 0 < inject_Z (Z.of_nat (length g))).
  { change 0 with (inject_Z 0). rewrite <- Zlt_Qlt. destruct g; [done|]. cbn [length]. lia. }
  split.
  - apply Qle_shift_div_l; [exact Hpos|]. lra.
  - apply Qle_shift_div_r; [exact Hpos|]. lra.
Qed.

Lemma group_min_bounds (lo hi : Q) (g : list Q) :
  g ≠ [] → (∀ y, In y g → lo <= y <= hi) →
  lo <= Spec.group_min g <= hi.
Proof.
  intros Hne Hg. apply Hg, group_min_least, Hne.
Qed.

Lemma In_group (scan : list Q) (i : nat) (y : Q) :
  In y (take 9 (drop (9 * i) scan)) → In y scan.
Proof.
  intros H. apply list_elem_of_In. apply list_elem_of_In in H.
  apply (subseteq_drop (9 * i)), (subseteq_take 9), H.
Qed.

(** Every cell of the specification's map lies between any two bounds
    that enclose all the readings. *)
Lemma laser_map_bounds (lo hi : Q) (scans : list (list Q)) :
  Forall (fun s => length s = 720%nat) scans →
  (∀ scan y, In scan scans → In y scan → lo <= y <= hi) →
  ∀ x, In x (Np.data (Spec.laser_map scans)) → lo <= x <= hi.
Proof.
  intros Hall Hb x Hx. unfold Spec.laser_map in Hx. cbn [Np.data] in Hx.
  assert (Hflat : In x (concat (Spec.intermediate scans))).
  { rewrite !in_app_iff in Hx. tauto. }
  clear Hx. apply in_concat in Hflat as (row & Hrow & Hx).
  unfold Spec.intermediate in Hrow. apply in_flat_map in Hrow as (scan & Hscan & Hrow).
  assert (Hlen : length scan = 720%nat).
  { rewrite Forall_forall in Hall. apply Hall, list_elem_of_In, Hscan. }
  assert (Hgroup : ∀ g, In g (Spec.groups scan) →
                        g ≠ [] ∧ ∀ y, In y g → lo <= y <= hi).
  { intros g Hg. unfold Spec.groups in Hg. apply in_map_iff in Hg as (i & <- & Hi).
    apply in_seq in Hi. split.
    - intros E. apply (f_equal length) in E. rewrite group_length in E by (done || lia).
      discriminate.
    - intros y Hy. apply (Hb scan); [exact Hscan|]. eapply In_group, Hy. }
  destruct Hrow as [<-|[<-|[]]]; apply in_map_iff in Hx as (g & <- & Hg);
    destruct (Hgroup g Hg) as [Hne Hin].
  - apply group_min_bounds; assumption.
  - apply group_mean_bounds; assumption.
Qed.

(** ** The stack across calls *)

(** A call on an array leaves the instance [_process_laser_scan] leaves;
    along a sequence of such calls the deque is full after the first. *)
Lemma after_call_array (s : self) (call : gmap string PyObj * gmap string bool)
    (a : list Q) :
  call.1 !! OBS_DICT_KEYS_LASER = Some (PyArray a) →
  after_call s call
  = (_process_laser_scan (PyArray a)
       (default false (call.2 !! OBS_DICT_KEYS_DONE)) s).2.
Proof.
  intros Hobs. unfold after_call. rewrite (encode_run _ _ _ s Hobs).
  destruct (_process_laser_scan _ _ s) as [[m|e] s']; reflexivity.
Qed.

Lemma after_calls_length (calls : list (gmap string PyObj * gmap string bool))
    (s : self) :
  Forall (fun call => ∃ a, call.1 !! OBS_DICT_KEYS_LASER = Some (PyArray a)) calls →
  _laser_queue s = [] ∨ length (_laser_queue s) = _laser_stack_size s →
  calls ≠ [] →
  length (_laser_queue (after_calls s calls)) = _laser_stack_size s.
Proof.
  intros Hall. revert s. induction Hall as [|call calls [a Ha] _ IH]; intros s Hinv Hne;
    [done|].
  unfold after_calls. cbn [fold_left]. fold (after_calls (after_call s call) calls).
  rewrite (after_call_array s call a Ha).
  destruct (process_array_state a (default false (call.2 !! OBS_DICT_KEYS_DONE)) s)
    as (Hsize & _ & Hlen).
  specialize (Hlen Hinv).
  destruct calls as [|call' calls'] eqn:Hcalls; [exact Hlen|].
  rewrite <- Hsize. apply IH; [right; rewrite Hsize; exact Hlen | done].
Qed.

(** An exception leaves [encode_observation] only from the lookup of the
    laser channel or from [pop] on a deque that is empty after the reset. *)
Lemma encode_raises (observation : gmap string PyObj) (kwargs : gmap string bool)
    (s : self) (e : exn) :
  (encode_observation observation kwargs s).1 = Raise e →
  (observation !! OBS_DICT_KEYS_LASER = None ∧ e = KeyError)
  ∨ (_laser_queue s = [] ∧ _laser_stack_size s = 0%nat ∧ e = IndexError).
Proof.
  destruct (observation !! OBS_DICT_KEYS_LASER) as [o|] eqn:Hobs.
  - rewrite (encode_run _ _ _ s Hobs). intros Hraise. right.
    destruct o as [|x|a].
    1,2: cbn in Hraise; discriminate.
    destruct (process_array_run a (default false (kwargs !! OBS_DICT_KEYS_DONE)) s)
      as (b & _ & Hrun).
    cbv zeta in Hrun. destruct (last _) eqn:Hlast in Hrun.
    + destruct Hrun as (m & s1 & _ & _ & _ & _ & _ & Hrun).
      rewrite Hrun in Hraise. cbn in Hraise. discriminate.
    + rewrite Hrun in Hraise. cbn in Hraise. injection Hraise as <-.
      apply last_None_nil in Hlast.
      destruct (Nat.eqb_spec (length (_laser_queue s)) 0) as [H0|H0].
      * apply (f_equal length) in Hlast. rewrite length_replicate in Hlast.
        destruct (_laser_queue s); [done | discriminate].
      * rewrite Hlast in H0. done.
  - intros Hraise. left. split; [reflexivity|].
    unfold encode_observation in Hraise. rewrite Hobs in Hraise.
    unfold mbind, M_bind, lift in Hraise. cbn [fst] in Hraise. congruence.
Qed.

(** * The claims *)

(** C1.  For a laser queue of exactly 10 numeric scans of length 720 each,
    the map-building step returns, without touching the instance, the 80×80
    array of the specification: the 20×80 intermediate matrix has in row
    [2n] the minima and in row [2n+1] the means of the 80 contiguous groups
    of 9 of scan [n]; its 1600 values are tiled four times into 6400 values
    shaped 80×80. *)
Theorem C1_build_laser_map_pooling (s : self) (scans : list (list Q)) :
  length scans = 10%nat →
  Forall (fun scan => length scan = 720%nat) scans →
  _build_laser_map (map PyArray scans) s = (Ok (Spec.laser_map scans), s)
  ∧ Np.shape (Spec.laser_map scans) = [80%nat; 80%nat]
  ∧ length (Np.data (Spec.laser_map scans)) = (80 * 80)%nat
  ∧ length (Spec.intermediate scans) = 20%nat
  ∧ length (concat (Spec.intermediate scans)) = 1600%nat
  ∧ (∀ n scan, scans !! n = Some scan →
       Spec.intermediate scans !! (2 * n)%nat
       = Some (map Spec.group_min (Spec.groups scan))
       ∧ Spec.intermediate scans !! (2 * n + 1)%nat
         = Some (map Spec.group_mean (Spec.groups scan))).
Proof.
  intros Hlen Hall.
  assert (Hflat : length (concat (Spec.intermediate scans)) = 1600%nat).
  { rewrite length_intermediate. lia. }
  split.
  { rewrite build_run, (build_try_spec scans Hlen Hall). reflexivity. }
  split; [reflexivity|]. split.
  { unfold Spec.laser_map. cbn [Np.data]. rewrite !length_app, Hflat. lia. }
  split; [rewrite length_intermediate_rows; lia|].
  split; [exact Hflat|].
  intros n scan Hn. apply intermediate_rows, Hn.
Qed.

(** C1 at a concrete input: ten scans that read 1 everywhere. *)
Lemma C1_witness :
  length (replicate 10 (replicate 720 (1 : Q))) = 10%nat
  ∧ _build_laser_map (map PyArray (replicate 10 (replicate 720 1))) (init 10 80 20)
    = (Ok (Spec.laser_map (replicate 10 (replicate 720 1))), init 10 80 20).
Proof.
  split; [reflexivity|].
  apply (C1_build_laser_map_pooling (init 10 80 20) (replicate 10 (replicate 720 1)));
    [reflexivity | repeat constructor].
Defined.

(** C2.  For a scan of length 512 the resampling block succeeds, the array
    it yields is the one the call pushes to the front of the deque, and its
    entry at every target index [i < 720] is the linear interpolation of
    the specification: [laser[idx_low] + ((θ_i − θ_low) / (θ_high − θ_low +
    1e-12)) · (laser[idx_high] − laser[idx_low])] with [θ_i = (i − 360) ·
    2π/719], [Δ_src = 2π/511], the indices the floor and the ceiling of
    [(θ_i + π)/Δ_src] clamped to [0, 511], and the native beam angle of
    index [j] taken as [(j − 256) · Δ_src]. *)
Theorem C2_resample_linear_interpolation (s : self) (a : list Q) (i : nat) :
  length a = 512%nat → (i < 720)%nat → (0 < _laser_stack_size s)%nat →
  ∃ b v m s',
    resample a = Ok b
    ∧ length b = 720%nat
    ∧ _process_laser_scan (PyArray a) false s = (Ok m, s')
    ∧ head (_laser_queue s') = Some (PyArray b)
    ∧ b !! i = Some v
    ∧ v == Spec.interpolate a i.
Proof.
  intros Hlen Hi Hsize.
  destruct (process_pushes a s Hsize) as (b & m & s' & Hb & Hrun & Hhead).
  rewrite Hlen in Hb. cbn [Nat.eqb] in Hb.
  destruct (resample_512 a Hlen) as (b' & Hb' & Hlenb & Hentry).
  assert (b' = b) as -> by congruence.
  destruct (Hentry i Hi) as (v & Hv & Hspec).
  exists b, v, m, s'. done.
Qed.

(** C2 at a concrete input: a scan of 512 ones, target index 5, a fresh
    instance of stack size 10. *)
Lemma C2_witness :
  ∃ b v m s',
    resample (replicate 512 1) = Ok b
    ∧ length b = 720%nat
    ∧ _process_laser_scan (PyArray (replicate 512 1)) false (init 10 80 20) = (Ok m, s')
    ∧ head (_laser_queue s') = Some (PyArray b)
    ∧ b !! 5%nat = Some v
    ∧ v == Spec.interpolate (replicate 512 1) 5.
Proof.
  apply (C2_resample_linear_interpolation (init 10 80 20) (replicate 512 1) 5);
    [reflexivity | lia | cbn; lia].
Defined.

(** C3.  Resampling happens at length 512 and nowhere else: a call on an
    array of any other length pushes that very array, and a call on an
    array of length 512 pushes an array of length 720, whatever the
    values. *)
Theorem C3_resampling_only_at_512 (s : self) (a : list Q) :
  (0 < _laser_stack_size s)%nat →
  ∃ b m s',
    _process_laser_scan (PyArray a) false s = (Ok m, s')
    ∧ head (_laser_queue s') = Some (PyArray b)
    ∧ (length a ≠ 512%nat → b = a)
    ∧ (length a = 512%nat → length b = 720%nat).
Proof.
  intros Hsize.
  destruct (process_pushes a s Hsize) as (b & m & s' & Hb & Hrun & Hhead).
  destruct (canonical_scan a) as (b' & Hb' & Hlen & Hsame).
  assert (b' = b) as -> by congruence.
  exists b, m, s'. split; [exact Hrun|]. split; [exact Hhead|].
  split; [exact Hsame|].
  intros H512. rewrite Hlen. unfold pushed_length. rewrite H512. reflexivity.
Qed.

(** C3 at a concrete input: a scan of 720 ones on a fresh instance of stack size 10. *)
Lemma C3_witness :
  ∃ b m s',
    _process_laser_scan (PyArray (replicate 720 1)) false (init 10 80 20) = (Ok m, s')
    ∧ head (_laser_queue s') = Some (PyArray b)
    ∧ (length (replicate 720 (1 : Q)) ≠ 512%nat → b = replicate 720 1)
    ∧ (length (replicate 720 (1 : Q)) = 512%nat → length b = 720%nat).
Proof.
  apply (C3_resampling_only_at_512 (init 10 80 20) (replicate 720 1)). cbn. lia.
Defined.

(** C4.  After an encode call whose laser input is an array and whose done
    flag is true, the deque is the all-zero reset state: as many zero scans
    as the stack size, of the length of the scan just pushed.  Nothing of
    the deque before the call is left, so two instances of equal stack size
    end with equal deques whatever their histories. *)
Theorem C4_reset_on_done (s : self) (observation : gmap string PyObj)
    (kwargs : gmap string bool) (a : list Q) :
  observation !! OBS_DICT_KEYS_LASER = Some (PyArray a) →
  kwargs !! OBS_DICT_KEYS_DONE = Some true →
  _laser_queue (after_call s (observation, kwargs))
  = replicate (_laser_stack_size s) (PyArray (Np.zeros1 (pushed_length a)))
  ∧ ∀ s2, _laser_stack_size s2 = _laser_stack_size s →
          _laser_queue (after_call s2 (observation, kwargs))
          = _laser_queue (after_call s (observation, kwargs)).
Proof.
  intros Hobs Hdone.
  assert (H : ∀ s0, _laser_queue (after_call s0 (observation, kwargs))
                   = replicate (_laser_stack_size s0)
                       (PyArray (Np.zeros1 (pushed_length a)))).
  { intros s0. rewrite (after_call_array s0 (observation, kwargs) a Hobs).
    cbn [fst snd]. rewrite Hdone. cbn [default].
    destruct (process_array_state a true s0) as (_ & Hq & _). apply Hq. reflexivity. }
  split; [apply H|]. intros s2 Hsize. rewrite !H, Hsize. reflexivity.
Qed.

(** C4 at a concrete input: a done call on an instance whose deque holds
    two earlier scans. *)
Lemma C4_witness :
  _laser_queue
    (after_call (with_queue (init 2 80 20) [PyArray [7]; PyArray [9]])
       ({[ OBS_DICT_KEYS_LASER := PyArray [3; 4] ]}, {[ OBS_DICT_KEYS_DONE := true ]}))
  = [PyArray [0; 0]; PyArray [0; 0]].
Proof.
  apply (C4_reset_on_done (with_queue (init 2 80 20) [PyArray [7]; PyArray [9]])
           {[ OBS_DICT_KEYS_LASER := PyArray [3; 4] ]}
           {[ OBS_DICT_KEYS_DONE := true ]} [3; 4]);
    reflexivity.
Defined.

(** C5.  Starting from a fresh instance, after every call of a sequence of
    encode calls whose laser inputs are arrays the deque has exactly
    [laser_stack_size] entries (the statement covers every non-empty
    sequence, hence every prefix of one). *)
Theorem C5_queue_length_invariant (laser_stack_size feature_map_size : nat)
    (roi_in_m : Q) (calls : list (gmap string PyObj * gmap string bool)) :
  Forall (fun call => ∃ a, call.1 !! OBS_DICT_KEYS_LASER = Some (PyArray a)) calls →
  calls ≠ [] →
  length (_laser_queue
            (after_calls (init laser_stack_size feature_map_size roi_in_m) calls))
  = laser_stack_size.
Proof.
  intros Hall Hne.
  apply (after_calls_length calls (init laser_stack_size feature_map_size roi_in_m));
    [exact Hall | left; reflexivity | exact Hne].
Qed.

(** C5 at a concrete input: three calls on a fresh instance of stack size
    3, the second one done. *)
Lemma C5_witness :
  length (_laser_queue
            (after_calls (init 3 80 20)
               [({[ OBS_DICT_KEYS_LASER := PyArray [1; 2] ]}, ∅);
                ({[ OBS_DICT_KEYS_LASER := PyArray [3; 4] ]},
                 {[ OBS_DICT_KEYS_DONE := true ]});
                ({[ OBS_DICT_KEYS_LASER := PyArray [5; 6] ]}, ∅)]))
  = 3%nat.
Proof.
  apply (C5_queue_length_invariant 3 80 20);
    [repeat constructor; eexists; reflexivity | discriminate].
Defined.

(** C6 (the code departs from the claim).  On a fresh instance of stack
    size 10 the first observation, an array of native length 512, resets
    the deque to zero scans of length 512, not 720: the reset runs on the
    raw scan, before the resampling.  The call then pushes the resampled
    scan of length 720 onto nine zero scans of length 512, the pooling
    fails on the ragged deque, and the call logs a warning and returns the
    all-zero fallback. *)
Theorem C6_creation_reset_keeps_native_length :
  _laser_queue (_reset_laser_stack (replicate 512 1) (init 10 80 20)).2
  = replicate 10 (PyArray (Np.zeros1 512))
  ∧ ∃ b,
      length b = 720%nat
      ∧ encode_observation {[ OBS_DICT_KEYS_LASER := PyArray (replicate 512 1) ]} ∅
          (init 10 80 20)
        = (Ok (Np.zeros [(80 * 80)%nat]),
           mk_self (PyArray b :: replicate 9 (PyArray (Np.zeros1 512))) 10 80 20
             [logwarn_cannot_build ValueError]).
Proof.
  split; [reflexivity|].
  eexists. split; [|vm_compute; reflexivity]. vm_compute. reflexivity.
Qed.

(** C7.  When the laser-channel value is not an ndarray, the encode step
    returns an all-zero array of length [feature_map_size *
    feature_map_size], raises nothing, and leaves the instance, its deque
    included, as it was. *)
Theorem C7_non_array_fallback (s : self) (observation : gmap string PyObj)
    (kwargs : gmap string bool) (o : PyObj) :
  observation !! OBS_DICT_KEYS_LASER = Some o →
  is_ndarray o = false →
  encode_observation observation kwargs s
  = (Ok (Np.mk_ndarray [(_feature_map_size s * _feature_map_size s)%nat]
           (replicate (_feature_map_size s * _feature_map_size s) 0)),
     s).
Proof.
  intros Hobs Harr. rewrite (encode_run _ _ _ s Hobs).
  destruct o as [|x|a]; [| |discriminate Harr].
  all: cbn [_process_laser_scan]; run_M;
    unfold Np.flatten, Np.zeros; cbn [Np.data Np.size_of foldr];
    rewrite length_replicate, Nat.mul_1_r; reflexivity.
Qed.

(** C7 at a concrete input: [None] in the laser channel of an instance
    with a filled deque. *)
Lemma C7_witness :
  encode_observation {[ OBS_DICT_KEYS_LASER := PyNone ]} ∅
    (with_queue (init 2 3 20) [PyArray [7]; PyArray [9]])
  = (Ok (Np.mk_ndarray [9%nat] (replicate 9 0)),
     with_queue (init 2 3 20) [PyArray [7]; PyArray [9]]).
Proof.
  apply (C7_non_array_fallback (with_queue (init 2 3 20) [PyArray [7]; PyArray [9]])
           {[ OBS_DICT_KEYS_LASER := PyNone ]} ∅ PyNone);
    reflexivity.
Defined.

(** The [try] block does raise: on an empty deque, on scans of different
    lengths, on ten scans that are shorter than 720. *)
Example build_try_raises :
  _build_laser_map_try [] = Raise ValueError
  ∧ _build_laser_map_try [PyArray [1; 2]; PyArray [1]] = Raise ValueError
  ∧ _build_laser_map_try (replicate 10 (PyArray (replicate 512 1))) = Raise ValueError.
Proof. repeat split; vm_compute; reflexivity. Qed.

(** C8.  Whatever the deque holds, [_build_laser_map] returns an array and
    never an exception.  When the [try] block raises [e], the step logs one
    warning carrying [e] and returns the all-zero array of the shape the
    gym space declares, the instance being otherwise unchanged; when the
    block succeeds its map is returned and nothing is logged.  An exception
    that does leave [encode_observation] comes from the lookup of the laser
    channel or from [pop] on an empty deque, never from the pooling. *)
Theorem C8_pooling_exceptions_caught (s : self) (laser_queue : list PyObj) :
  ∃ m s',
    _build_laser_map laser_queue s = (Ok m, s')
    ∧ (∀ e, _build_laser_map_try laser_queue = Raise e →
            m = Np.zeros (Gym.box_shape (get_gym_space s))
            ∧ Np.shape m = [(_feature_map_size s * _feature_map_size s)%nat]
            ∧ Forall (fun x => x = 0) (Np.data m)
            ∧ s' = mk_self (_laser_queue s) (_laser_stack_size s)
                     (_feature_map_size s) (_roi_in_m s)
                     (logwarn_cannot_build e :: rosout s))
    ∧ (∀ m0, _build_laser_map_try laser_queue = Ok m0 → m = m0 ∧ s' = s)
    ∧ (∀ observation kwargs e,
         (encode_observation observation kwargs s).1 = Raise e →
         (observation !! OBS_DICT_KEYS_LASER = None ∧ e = KeyError)
         ∨ (_laser_queue s = [] ∧ _laser_stack_size s = 0%nat ∧ e = IndexError)).
Proof.
  rewrite build_run. destruct (_build_laser_map_try laser_queue) as [m0|e0].
  - exists m0, s. split; [reflexivity|]. split; [intros e He; discriminate He|].
    split; [intros m1 Hm1; injection Hm1 as <-; done|].
    intros observation kwargs e. apply encode_raises.
  - eexists _, _. split; [reflexivity|]. split.
    + intros e He. injection He as <-. split; [reflexivity|].
      split; [reflexivity|]. split; [|reflexivity].
      unfold Np.zeros. cbn [Np.data]. apply Forall_replicate. reflexivity.
    + split; [intros m1 Hm1; discriminate Hm1|].
      intros observation kwargs e. apply encode_raises.
Qed.

(** C9 as stated fails where the readings leave the declared bounds.
    With a feature map size of 80, a region of interest of 1 m and ten
    scans that read 5 m everywhere, the map holds cells equal to 5. *)
Lemma C9_bounds_counterexample :
  ¬ (∀ m,
       (_build_laser_map (map PyArray (replicate 10 (replicate 720 5)))
          (init 10 80 1)).1 = Ok m →
       length (Np.data m)
       = (_feature_map_size (init 10 80 1) * _feature_map_size (init 10 80 1))%nat
       ∧ ∀ x, In x (Np.data m) → 0 <= x <= _roi_in_m (init 10 80 1)).
Proof.
  intros H.
  destruct (H (Spec.laser_map (replicate 10 (replicate 720 5)))) as [_ Hb].
  { rewrite build_run, build_try_spec;
      [reflexivity | reflexivity | repeat constructor]. }
  destruct (Hb 5) as [_ Hle].
  - destruct (Np.data (Spec.laser_map (replicate 10 (replicate 720 5))))
      as [|x l] eqn:E; vm_compute in E; [discriminate E|].
    injection E as <- _. left. reflexivity.
  - cbn in Hle. apply Hle. reflexivity.
Qed.

(** The number of elements for a feature map size other than 80.  The
    successful pooling is written for 80 x 80 cells, while the gym space
    and both all-zero returns take [feature_map_size²]: with a feature map
    size of 64 the map of ten scans of 720 has 6400 elements where the
    declared space, and the map of a deque that cannot be pooled, have
    4096. *)
Example build_size_at_64 :
  ∃ m m0 s0,
    _build_laser_map (map PyArray (replicate 10 (replicate 720 1))) (init 10 64 20)
    = (Ok m, init 10 64 20)
    ∧ length (Np.data m) = (80 * 80)%nat
    ∧ Gym.box_shape (get_gym_space (init 10 64 20)) = [(64 * 64)%nat]
    ∧ _build_laser_map [] (init 10 64 20) = (Ok m0, s0)
    ∧ length (Np.data m0) = (64 * 64)%nat.
Proof.
  exists (Spec.laser_map (replicate 10 (replicate 720 1))).
  eexists _, _.
  split; [rewrite build_run, build_try_spec;
            [reflexivity | reflexivity | repeat constructor]|].
  split; [unfold Spec.laser_map; cbn [Np.data];
            rewrite !length_app, length_intermediate, length_replicate; lia|].
  split; [reflexivity|].
  split; [rewrite build_run; reflexivity|].
  unfold Np.zeros. cbn [Np.data Np.size_of foldr _feature_map_size init].
  rewrite length_replicate. lia.
Qed.

(** C9, amended.  For ten numeric scans of length 720 the map-building
    output has exactly [feature_map_size²] elements on an instance whose
    feature map size is 80, and every element lies within [0, roi_in_m]
    provided every reading of the stack does: the pooling clips nothing.
    Nothing is said about the number of elements for another feature map
    size. *)
Theorem C9_map_size_and_bounds (s : self) (scans : list (list Q)) :
  length scans = 10%nat →
  Forall (fun scan => length scan = 720%nat) scans →
  ∃ m,
    _build_laser_map (map PyArray scans) s = (Ok m, s)
    ∧ (_feature_map_size s = 80%nat →
       length (Np.data m) = (_feature_map_size s * _feature_map_size s)%nat)
    ∧ ((∀ scan x, In scan scans → In x scan → 0 <= x <= _roi_in_m s) →
       ∀ x, In x (Np.data m) → 0 <= x <= _roi_in_m s).
Proof.
  intros Hlen Hall. exists (Spec.laser_map scans).
  split; [rewrite build_run, (build_try_spec scans Hlen Hall); reflexivity|].
  split.
  - intros ->. unfold Spec.laser_map. cbn [Np.data].
    rewrite !length_app, length_intermediate. lia.
  - intros Hb. apply laser_map_bounds; assumption.
Qed.

(** C9 at a concrete input: ten scans that read 1/2 everywhere, with a
    feature map size of 80 and a region of interest of 1. *)
Lemma C9_witness :
  ∃ m,
    _build_laser_map (map PyArray (replicate 10 (replicate 720 (1 # 2)))) (init 10 80 1)
    = (Ok m, init 10 80 1)
    ∧ length (Np.data m)
      = (_feature_map_size (init 10 80 1) * _feature_map_size (init 10 80 1))%nat
    ∧ ∀ x, In x (Np.data m) → 0 <= x <= _roi_in_m (init 10 80 1).
Proof.
  destruct (C9_map_size_and_bounds (init 10 80 1)
              (replicate 10 (replicate 720 (1 # 2))))
    as (m & Hrun & Hsize & Hbounds); [reflexivity | repeat constructor |].
  exists m. split; [exact Hrun|]. split; [apply Hsize; reflexivity|].
  apply Hbounds. intros scan x Hscan Hx.
  apply list_elem_of_In, elem_of_replicate in Hscan as [-> _].
  apply list_elem_of_In, elem_of_replicate in Hx as [-> _].
  split; discriminate.
Defined.

(** ** [LaserScanSpace] *)

Lemma map_rescale_id (low high : Q) (a : list Q) :
  map (LaserScanSpace.rescale LaserScanSpace.no_normalization low high) a = a.
Proof. induction a as [|x a IH]; [reflexivity|]. cbn. rewrite IH. reflexivity. Qed.

(** C10 as stated fails once the instance normalizes: with bounds [0, 2]
    and rescaling into [0, 1] the reading 1 is encoded as 1/2. *)
Lemma C10_normalized_counterexample :
  ¬ (∃ out,
       LaserScanSpace.encode_observation
         (LaserScanSpace.mk_self 1 2 LaserScanSpace.rescale_unit)
         {[ LaserCollector_name := PyArray [1] ]} = Ok out
       ∧ Np.shape out = [1%nat; 1%nat]
       ∧ Forall2 Qeq (Np.data out) [1]).
Proof.
  intros (out & Hout & _ & Hdata).
  vm_compute in Hout. injection Hout as <-. cbn [Np.data] in Hdata.
  inversion Hdata as [|x y l l' Hxy _]; subst. discriminate Hxy.
Qed.

(** C10, amended.  For an observation dict whose laser entry is a
    one-dimensional array of length [n], [encode_observation] returns an
    array of shape [(1, n)]; its entries are the input values rescaled with
    the declared bounds, hence exactly the input values when the instance
    applies no normalization.  [get_gym_space] declares a Box
    with low 0, high [laser_max_range], shape [(1, laser_num_beams)] and
    dtype float32, so the shapes agree exactly when [n = laser_num_beams]. *)
Theorem C10_laser_scan_encoding (s : LaserScanSpace.self)
    (observation : gmap string PyObj) (a : list Q) :
  observation !! LaserCollector_name = Some (PyArray a) →
  (∃ out,
     LaserScanSpace.encode_observation s observation = Ok out
     ∧ Np.shape out = [1%nat; length a]
     ∧ Np.data out
       = map (LaserScanSpace.rescale (LaserScanSpace._normalization s)
                0 (LaserScanSpace._max_range s)) a
     ∧ (LaserScanSpace._normalization s = LaserScanSpace.no_normalization →
        Np.data out = a)
     ∧ (Np.shape out = Gym.box_shape (LaserScanSpace.get_gym_space s)
        ↔ length a = LaserScanSpace._num_beams s))
  ∧ LaserScanSpace.get_gym_space s
    = Gym.mk_Box 0 (LaserScanSpace._max_range s)
        [1%nat; LaserScanSpace._num_beams s] Gym.float32.
Proof.
  intros Hobs. split; [|reflexivity].
  unfold LaserScanSpace.encode_observation, LaserScanSpace.apply_normalization,
    LaserScanSpace.encode_observation_wrapped.
  rewrite Hobs. cbn [LaserScanSpace.newaxis_all mbind result_bind mret result_ret].
  eexists. split; [reflexivity|]. cbn [Np.shape Np.data].
  split; [reflexivity|]. split; [reflexivity|]. split.
  - intros ->. apply map_rescale_id.
  - cbn [LaserScanSpace.get_gym_space Gym.box_shape]. split; [congruence|].
    intros ->. reflexivity.
Qed.

(** C10 at a concrete input: three beams, no normalization. *)
Lemma C10_witness :
  ∃ out,
    LaserScanSpace.encode_observation
      (LaserScanSpace.mk_self 3 30 LaserScanSpace.no_normalization)
      {[ LaserCollector_name := PyArray [1; 2; 3] ]} = Ok out
    ∧ Np.shape out = [1%nat; 3%nat]
    ∧ Np.data out
      = map (LaserScanSpace.rescale LaserScanSpace.no_normalization 0 30) [1; 2; 3]
    ∧ (LaserScanSpace.no_normalization = LaserScanSpace.no_normalization →
       Np.data out = [1; 2; 3])
    ∧ (Np.shape out = [1%nat; 3%nat] ↔ 3%nat = 3%nat).
Proof.
  apply (C10_laser_scan_encoding
           (LaserScanSpace.mk_self 3 30 LaserScanSpace.no_normalization)
           {[ LaserCollector_name := PyArray [1; 2; 3] ]} [1; 2; 3]).
  reflexivity.
Defined.

(** * Further properties *)

(** ** Loops that keep an invariant, and loops that raise *)



(** ** The pooling on an arbitrary buffer *)





Local Transparent _build_laser_map_try.






Local Opaque _build_laser_map_try.

(** ** The deque as a window on the history *)






(** ** The stacked laser map across calls *)

















(** ** Properties beyond the claims: the resampling *)












(** ** Properties beyond the claims: the map *)










(** ** Properties beyond the claims: runs of calls *)











(** * Encoder table and ResNet layer configuration *)




















